(** * The three-layer framework (shared/layer_framework/__init__.py)

    A shallow embedding of the envelope/validation protocol, the three
    stage kinds and the orchestrator of [shared/layer_framework], followed
    by the properties the specification states about them.

    Python objects are modelled as records, enumerations as inductive
    types, [Any]-typed payloads as a small universe of Python values,
    exceptions as an explicit [Raised] result, and the mutable object
    graph (buffers shared by reference between two stages, the
    orchestrator's log, the [logging] sink, the wall clock) as a [World]
    that every operation threads through. *)

From Stdlib Require Import ZArith String Ascii List Bool Lia DecimalString.
From Stdlib Require Import PrimFloat.
Import ListNotations.
Open Scope string_scope.

Set Implicit Arguments.

(* ================================================================== *)
(** ** Python values, exceptions and built-ins                          *)
(* ================================================================== *)

Module Py.

(** An exception instance caught by [except Exception]: its class name
    and the text [str(e)] yields. *)
Record Exc := mkExc { exc_class : string; exc_text : string }.

(** The outcome of evaluating a Python expression. *)
Inductive Result (A : Type) : Type :=
| Returned (a : A)
| Raised (e : Exc).
Arguments Returned {A} a.
Arguments Raised {A} e.

(** The payloads the framework passes around are typed [Any].  The
    universe below has the built-in values whose truth value and text
    Python fixes, and [PyObject] for an instance of a user class, given by
    its class name and by what [bool(x)], [str(x)] and [repr(x)] do on
    it (each may raise).  Strings are sequences of code points below
    256.  A [PyDict] lists its items in insertion order. *)
#[warnings="-register-all"]
Inductive Value : Type :=
| PyNone
| PyBool (b : bool)
| PyInt (n : Z)
| PyStr (s : string)
| PyList (items : list Value)
| PyDict (entries : list (Value * Value))
| PyObject (cls : string) (truth : Result bool)
         (text : Result string) (repr_text : Result string).

(** [bool(x)], as evaluated by [if x] and [... if x else ...]. *)
Definition truthy (v : Value) : Result bool :=
  match v with
  | PyNone => Returned false
  | PyBool b => Returned b
  | PyInt n => Returned (negb (n =? 0)%Z)
  | PyStr s => Returned (negb (String.length s =? 0)%nat)
  | PyList items => Returned (negb (length items =? 0)%nat)
  | PyDict entries => Returned (negb (length entries =? 0)%nat)
  | PyObject _ truth _ _ => truth
  end.

(** [type(x).__name__] *)
Definition type_name (v : Value) : string :=
  match v with
  | PyNone => "NoneType"
  | PyBool _ => "bool"
  | PyInt _ => "int"
  | PyStr _ => "str"
  | PyList _ => "list"
  | PyDict _ => "dict"
  | PyObject cls _ _ _ => cls
  end.

Definition squote : ascii := ascii_of_nat 39.
Definition dquote : ascii := ascii_of_nat 34.
Definition backslash : ascii := ascii_of_nat 92.

Fixpoint contains_char (c : ascii) (s : string) : bool :=
  match s with
  | EmptyString => false
  | String d s' => Ascii.eqb c d || contains_char c s'
  end.

Definition hex_digit (n : nat) : ascii :=
  nth n (list_ascii_of_string "0123456789abcdef") "0"%char.

(** One character of [repr] of a [str]: the quote and the backslash are
    escaped, tab, newline and carriage return have their letters, the
    other non-printable code points are written [\xNN]. *)
Definition repr_char (quote c : ascii) : string :=
  let n := nat_of_ascii c in
  if Ascii.eqb c quote || Ascii.eqb c backslash
  then String backslash (String c EmptyString)
  else if (n =? 9)%nat then String backslash "t"
  else if (n =? 10)%nat then String backslash "n"
  else if (n =? 13)%nat then String backslash "r"
  else if (n <? 32)%nat || ((127 <=? n)%nat && (n <=? 160)%nat) || (n =? 173)%nat
  then String backslash
         (String "x" (String (hex_digit (n / 16)) (String (hex_digit (n mod 16)) EmptyString)))
  else String c EmptyString.

Fixpoint repr_chars (quote : ascii) (s : string) : string :=
  match s with
  | EmptyString => EmptyString
  | String c s' => repr_char quote c ++ repr_chars quote s'
  end.

(** [repr] of a [str]: single quotes, unless the text has a single
    quote and no double quote. *)
Definition repr_str (s : string) : string :=
  let quote :=
    if contains_char squote s && negb (contains_char dquote s)
    then dquote else squote in
  String quote (repr_chars quote s ++ String quote EmptyString).

Definition repr_int (n : Z) : string := NilZero.string_of_int (Z.to_int n).

Definition repr_bool (b : bool) : string := if b then "True" else "False".

(** [repr] of an [int]: CPython refuses to render an integer of more
    digits than [sys.get_int_max_str_digits()], 4300 unless changed. *)
Definition int_max_str_digits : nat := 4300.

Definition repr_of_int (n : Z) : Result string :=
  if (int_max_str_digits <? String.length (repr_int (Z.abs n)))%nat
  then Raised (mkExc "ValueError"
                 ("Exceeds the limit (4300 digits) for integer string conversion; "
                  ++ "use sys.set_int_max_str_digits() to increase the limit"))
  else Returned (repr_int n).

Fixpoint join (sep : string) (parts : list string) : string :=
  match parts with
  | [] => EmptyString
  | [p] => p
  | p :: rest => p ++ sep ++ join sep rest
  end.

(** [repr(x)]; the items of a container are rendered left to right and
    the first one that raises aborts the rendering.  Containers are
    followed as deep as they are nested: the [RecursionError] CPython
    raises when the nesting exceeds what is left of the interpreter's
    stack depends on the caller's stack and is not followed. *)
Fixpoint repr (v : Value) : Result string :=
  match v with
  | PyNone => Returned "None"
  | PyBool b => Returned (repr_bool b)
  | PyInt n => repr_of_int n
  | PyStr s => Returned (repr_str s)
  | PyList items =>
      let fix each (xs : list Value) : Result (list string) :=
        match xs with
        | [] => Returned []
        | x :: xs' =>
            match repr x with
            | Raised e => Raised e
            | Returned s =>
                match each xs' with
                | Raised e => Raised e
                | Returned ss => Returned (s :: ss)
                end
            end
        end in
      match each items with
      | Raised e => Raised e
      | Returned ss => Returned ("[" ++ join ", " ss ++ "]")
      end
  | PyDict entries =>
      let fix each (xs : list (Value * Value)) : Result (list string) :=
        match xs with
        | [] => Returned []
        | (k, x) :: xs' =>
            match repr k with
            | Raised e => Raised e
            | Returned sk =>
                match repr x with
                | Raised e => Raised e
                | Returned sx =>
                    match each xs' with
                    | Raised e => Raised e
                    | Returned ss => Returned ((sk ++ ": " ++ sx) :: ss)
                    end
                end
            end
        end in
      match each entries with
      | Raised e => Raised e
      | Returned ss => Returned ("{" ++ join ", " ss ++ "}")
      end
  | PyObject _ _ _ repr_text => repr_text
  end.

(** [str(x)] *)
Definition str (v : Value) : Result string :=
  match v with
  | PyStr s => Returned s
  | PyObject _ _ text _ => text
  | _ => repr v
  end.

End Py.

Import Py.

(* ================================================================== *)
(** ** Data model                                                       *)
(* ================================================================== *)

(** [class LayerType(Enum)] *)
Inductive LayerType : Type := TOP | MIDDLE | BOTTOM.

(** [LayerType.value] *)
Definition LayerType_value (t : LayerType) : string :=
  match t with
  | TOP => "top"
  | MIDDLE => "middle"
  | BOTTOM => "bottom"
  end.

(** [class ValidationStatus(Enum)] *)
Inductive ValidationStatus : Type := PASSED | FAILED | WARNING.

Definition ValidationStatus_eqb (a b : ValidationStatus) : bool :=
  match a, b with
  | PASSED, PASSED | FAILED, FAILED | WARNING, WARNING => true
  | _, _ => false
  end.

(** [class LayerExpectation].  The two predicates are methods: the
    record carries the ones of the object's class, so that an instance
    of a subclass with schema-aware checks is a [LayerExpectation] too.
    A predicate may raise. *)
Record LayerExpectation : Type := mkLayerExpectation {
  layer_type : LayerType;
  input_schema : Value;
  output_schema : Value;
  validation_rules : list string;
  quality_requirements : Value;
  performance_constraints : Value;
  validate_input : Value -> Result bool;
  validate_output : Value -> Result bool
}.

(** [LayerExpectation.validate_input] and [validate_output] as the
    class itself defines them. *)
Definition LayerExpectation_validate_input (data : Value) : Result bool :=
  Returned true.

Definition LayerExpectation_validate_output (data : Value) : Result bool :=
  Returned true.

(** [LayerExpectation(layer_type=..., ...)]: an instance of the class
    itself. *)
Definition new_LayerExpectation (lt : LayerType) (i o : Value)
    (rules : list string) (q p : Value) : LayerExpectation :=
  mkLayerExpectation lt i o rules q p
    LayerExpectation_validate_input LayerExpectation_validate_output.

(** [datetime] values; only their order of production and their
    [isoformat()] text are used. *)
Definition datetime : Type := Z.

(** [class BufferValidation] *)
Record BufferValidation : Type := mkBufferValidation {
  status : ValidationStatus;
  message : string;
  timestamp : datetime;
  layer_from : LayerType;
  layer_to : LayerType;
  data_size : Z;
  validation_details : Value
}.

(** [class DirectionBuffer] *)
Record DirectionBuffer : Type := mkDirectionBuffer {
  source_layer : LayerType;
  target_layer : LayerType;
  expectations : LayerExpectation;
  data : Value;
  metadata : Value;
  validation_results : list BufferValidation
}.

(** A reference to a [DirectionBuffer] object. *)
Definition BufferRef : Type := nat.

(** The attributes [LayerInterface.__init__] sets on every stage. *)
Record LayerInterface : Type := mkLayerInterface {
  stage_layer_type : LayerType;
  stage_expectations : LayerExpectation;
  input_buffer : option BufferRef;
  output_buffer : option BufferRef
}.

(** [class TopLayer] *)
Record TopLayer : Type := mkTopLayer {
  top_base : LayerInterface;
  workflow_definition : Value;
  middle_layer_requirements : Value;
  bottom_layer_requirements : Value
}.

(** [class MiddleLayer] *)
Record MiddleLayer : Type := mkMiddleLayer {
  middle_base : LayerInterface;
  processing_config : Value;
  quality_gates : list string
}.

(** [class BottomLayer] *)
Record BottomLayer : Type := mkBottomLayer {
  bottom_base : LayerInterface;
  finalization_rules : list string;
  output_validators : list string
}.

(** A record handed to the module's [logger]. *)
Inductive LogLevel : Type := INFO | WARNING_LEVEL.

Record LogRecord : Type := mkLogRecord {
  levelname : LogLevel;
  msg : string
}.

(** An entry of [ThreeLayerOrchestrator.execution_log]: the dict with
    the keys [timestamp], [event] and [details]. *)
Record LogEntry : Type := mkLogEntry {
  entry_timestamp : string;
  event : string;
  details : Value
}.

(** The mutable state one [ThreeLayerOrchestrator] can reach: the
    [DirectionBuffer] objects (by reference, [allocated] of them so
    far), its three stages, its execution log, the records emitted on
    the logger and the number of times the clock has been read. *)
Record World : Type := mkWorld {
  buffers : BufferRef -> DirectionBuffer;
  allocated : nat;
  clock_reads : nat;
  logger : list LogRecord;
  top_layer : TopLayer;
  middle_layer : MiddleLayer;
  bottom_layer : BottomLayer;
  execution_log : list LogEntry
}.

Definition set_buffers (f : BufferRef -> DirectionBuffer) (n : nat) (w : World) : World :=
  mkWorld f n (clock_reads w) (logger w)
          (top_layer w) (middle_layer w) (bottom_layer w) (execution_log w).

Definition set_clock_reads (n : nat) (w : World) : World :=
  mkWorld (buffers w) (allocated w) n (logger w)
          (top_layer w) (middle_layer w) (bottom_layer w) (execution_log w).

Definition set_logger (l : list LogRecord) (w : World) : World :=
  mkWorld (buffers w) (allocated w) (clock_reads w) l
          (top_layer w) (middle_layer w) (bottom_layer w) (execution_log w).

Definition set_top_layer (t : TopLayer) (w : World) : World :=
  mkWorld (buffers w) (allocated w) (clock_reads w) (logger w)
          t (middle_layer w) (bottom_layer w) (execution_log w).

Definition set_middle_layer (m : MiddleLayer) (w : World) : World :=
  mkWorld (buffers w) (allocated w) (clock_reads w) (logger w)
          (top_layer w) m (bottom_layer w) (execution_log w).

Definition set_bottom_layer (b : BottomLayer) (w : World) : World :=
  mkWorld (buffers w) (allocated w) (clock_reads w) (logger w)
          (top_layer w) (middle_layer w) b (execution_log w).

Definition set_execution_log (l : list LogEntry) (w : World) : World :=
  mkWorld (buffers w) (allocated w) (clock_reads w) (logger w)
          (top_layer w) (middle_layer w) (bottom_layer w) l.

(** Which of the orchestrator's three stage attributes a method call
    has as [self]. *)
Inductive StageId : Type := TopStage | MiddleStage | BottomStage.

Definition layer_base (s : StageId) (w : World) : LayerInterface :=
  match s with
  | TopStage => top_base (top_layer w)
  | MiddleStage => middle_base (middle_layer w)
  | BottomStage => bottom_base (bottom_layer w)
  end.

Definition set_layer_base (s : StageId) (b : LayerInterface) (w : World) : World :=
  match s with
  | TopStage =>
      let t := top_layer w in
      set_top_layer (mkTopLayer b (workflow_definition t)
                       (middle_layer_requirements t) (bottom_layer_requirements t)) w
  | MiddleStage =>
      let m := middle_layer w in
      set_middle_layer (mkMiddleLayer b (processing_config m) (quality_gates m)) w
  | BottomStage =>
      let f := bottom_layer w in
      set_bottom_layer (mkBottomLayer b (finalization_rules f) (output_validators f)) w
  end.

(** Computations in a world that return or raise. *)
Definition M (A : Type) : Type := World -> Result A * World.

Definition ret {A} (a : A) : M A := fun w => (Returned a, w).

Definition raise {A} (e : Exc) : M A := fun w => (Raised e, w).

Definition bind {A B} (c : M A) (k : A -> M B) : M B :=
  fun w =>
    match c w with
    | (Returned a, w') => k a w'
    | (Raised e, w') => (Raised e, w')
    end.

(** A step that cannot raise. *)
Definition lift {A} (c : World -> A * World) : M A :=
  fun w => let '(a, w') := c w in (Returned a, w').

(** [try: body  except Exception as e: handler(e)] *)
Definition try_except {A} (body : M A) (handler : Exc -> M A) : M A :=
  fun w =>
    match body w with
    | (Returned a, w') => (Returned a, w')
    | (Raised e, w') => handler e w'
    end.

Notation "x <- c ;; k" := (bind c (fun x => k))
  (at level 61, c at next level, right associativity).
Notation "c ;;; k" := (bind c (fun _ => k))
  (at level 61, right associativity).

(* ================================================================== *)
(** ** Operations                                                       *)
(* ================================================================== *)

Section Framework.

(** The wall clock: [now_at k] is what the [k]-th call of
    [datetime.now()] returns. *)
Variable now_at : nat -> datetime.

(** [datetime.isoformat()] *)
Variable isoformat : datetime -> string.

(** [datetime.now()] *)
Definition datetime_now (w : World) : datetime * World :=
  (now_at (clock_reads w), set_clock_reads (S (clock_reads w)) w).

(** [logger.info(m)] and [logger.warning(m)] *)
Definition logger_info (m : string) (w : World) : World :=
  set_logger (logger w ++ [mkLogRecord INFO m]) w.

Definition logger_warning (m : string) (w : World) : World :=
  set_logger (logger w ++ [mkLogRecord WARNING_LEVEL m]) w.

(** *** DirectionBuffer *)

Definition store_buffer (r : BufferRef) (b : DirectionBuffer) (w : World) : World :=
  set_buffers (fun r' => if Nat.eqb r' r then b else buffers w r') (allocated w) w.

(** [DirectionBuffer(...)]: a new object. *)
Definition new_buffer (b : DirectionBuffer) (w : World) : BufferRef * World :=
  let r := allocated w in
  (r, set_buffers (fun r' => if Nat.eqb r' r then b else buffers w r') (S r) w).

(** [self.validation_results.append(validation)] *)
Definition append_validation_result (self : BufferRef) (validation : BufferValidation)
    (w : World) : World :=
  let b := buffers w self in
  store_buffer self
    (mkDirectionBuffer (source_layer b) (target_layer b) (expectations b)
       (data b) (metadata b) (validation_results b ++ [validation])) w.

(** [len(str(self.data)) if self.data else 0] *)
Definition payload_size (d : Value) : Result Z :=
  match truthy d with
  | Raised e => Raised e
  | Returned false => Returned 0%Z
  | Returned true =>
      match Py.str d with
      | Raised e => Raised e
      | Returned s => Returned (Z.of_nat (String.length s))
      end
  end.

(** The [try] block of [DirectionBuffer.validate]. *)
Definition validate_body (self : BufferRef) : M BufferValidation :=
  fun w =>
    let b := buffers w self in
    match validate_input (expectations b) (data b) with
    | Raised e => (Raised e, w)
    | Returned input_valid =>
        let st := if input_valid then PASSED else FAILED in
        let m := if input_valid then "Buffer validation passed"
                 else "Buffer validation failed" in
        let '(now, w1) := datetime_now w in
        match payload_size (data b) with
        | Raised e => (Raised e, w1)
        | Returned size =>
            let validation :=
              mkBufferValidation st m now (source_layer b) (target_layer b) size
                (PyDict [(PyStr "input_valid", PyBool input_valid)]) in
            (Returned validation, append_validation_result self validation w1)
        end
    end.

(** The [except Exception as e] block of [DirectionBuffer.validate]. *)
Definition validate_handler (self : BufferRef) (e : Exc) (w : World)
  : BufferValidation * World :=
  let '(now, w1) := datetime_now w in
  let b := buffers w1 self in
  let validation :=
    mkBufferValidation FAILED ("Buffer validation error: " ++ exc_text e) now
      (source_layer b) (target_layer b) 0%Z
      (PyDict [(PyStr "error", PyStr (exc_text e))]) in
  (validation, append_validation_result self validation w1).

(** [DirectionBuffer.validate] *)
Definition validate (self : BufferRef) (w : World) : BufferValidation * World :=
  match validate_body self w with
  | (Returned validation, w') => (validation, w')
  | (Raised e, w') => validate_handler self e w'
  end.

(** *** LayerInterface *)

(** [LayerInterface.set_input_buffer] *)
Definition set_input_buffer (self : StageId) (buffer : BufferRef) (w : World) : World :=
  let s := layer_base self w in
  set_layer_base self
    (mkLayerInterface (stage_layer_type s) (stage_expectations s)
       (Some buffer) (output_buffer s)) w.

(** [LayerInterface.create_output_buffer] *)
Definition create_output_buffer (self : StageId) (target : LayerType) (d : Value)
    (w : World) : BufferRef * World :=
  let s := layer_base self w in
  let target_expectations :=
    new_LayerExpectation target (output_schema (stage_expectations s))
      (PyDict []) [] (PyDict []) (PyDict []) in
  let '(now, w1) := datetime_now w in
  let '(buffer, w2) :=
    new_buffer
      (mkDirectionBuffer (stage_layer_type s) target target_expectations d
         (PyDict [(PyStr "created_at", PyStr (isoformat now));
                  (PyStr "source_layer_type",
                   PyStr (LayerType_value (stage_layer_type s)))])
         []) w1 in
  let s2 := layer_base self w2 in
  (buffer,
   set_layer_base self
     (mkLayerInterface (stage_layer_type s2) (stage_expectations s2)
        (input_buffer s2) (Some buffer)) w2).

(** *** TopLayer

    [TopLayer] leaves [process] abstract; [orchestrate] is the abstract
    hook of the class.  The concrete subclasses of the repository
    ([FactCheckAuditor], inherited by the A2A and ADK adapters,
    [SimpleAuditor], [TestTopLayer]) each define [process] with the same
    one-line body. *)
Variable orchestrate : Value -> M Value.

(** [FactCheckAuditor.process] (fact_checking.py) *)
Definition FactCheckAuditor_process (input_data : Value) : M Value :=
  orchestrate input_data.

(** [SimpleAuditor.process] (simplified_demo.py) *)
Definition SimpleAuditor_process (input_data : Value) : M Value :=
  orchestrate input_data.

(** [TestTopLayer.process] (simple_test.py) *)
Definition TestTopLayer_process (input_data : Value) : M Value :=
  orchestrate input_data.

(** *** MiddleLayer *)

(** The abstract hook, and the overridable gate check. *)
Variable execute_core_logic : Value -> M Value.
Variable _check_quality_gate : string -> Value -> bool.

(** [MiddleLayer._check_quality_gate] as the class itself defines it. *)
Definition MiddleLayer_check_quality_gate (gate_name : string) (d : Value) : bool :=
  true.

(** [for gate in self.quality_gates: ...] *)
Fixpoint apply_quality_gates (gates : list string) (result : Value) (w : World) : World :=
  match gates with
  | [] => w
  | gate :: rest =>
      let w1 :=
        if negb (_check_quality_gate gate result)
        then logger_warning ("Quality gate '" ++ gate ++ "' failed") w
        else w in
      apply_quality_gates rest result w1
  end.

(** [MiddleLayer.process] *)
Definition MiddleLayer_process (input_data : Value) : M Value :=
  (fun w =>
     match input_buffer (middle_base (middle_layer w)) with
     | Some buffer =>
         let '(validation, w1) := validate buffer w in
         if ValidationStatus_eqb (status validation) FAILED
         then (Raised (mkExc "ValueError"
                         ("Input validation failed: " ++ message validation)), w1)
         else (Returned tt, w1)
     | None => (Returned tt, w)
     end) ;;;
  result <- execute_core_logic input_data ;;
  lift (fun w => (tt, apply_quality_gates (quality_gates (middle_layer w)) result w)) ;;;
  ret result.

(** *** BottomLayer *)

Variable finalize_output : Value -> M Value.
Variable _apply_finalization_rule : string -> Value -> Value.
Variable _validate_output : string -> Value -> bool.

(** [BottomLayer._apply_finalization_rule] and [_validate_output] as the
    class itself defines them. *)
Definition BottomLayer_apply_finalization_rule (rule : string) (d : Value) : Value := d.

Definition BottomLayer_validate_output (validator : string) (d : Value) : bool := true.

(** [for rule in self.finalization_rules: input_data = ...] *)
Fixpoint apply_finalization_rules (rules : list string) (input_data : Value) : Value :=
  match rules with
  | [] => input_data
  | rule :: rest =>
      apply_finalization_rules rest (_apply_finalization_rule rule input_data)
  end.

(** [for validator in self.output_validators: ...] *)
Fixpoint apply_output_validators (validators : list string) (result : Value) (w : World)
  : World :=
  match validators with
  | [] => w
  | validator :: rest =>
      let w1 :=
        if negb (_validate_output validator result)
        then logger_warning ("Output validator '" ++ validator ++ "' failed") w
        else w in
      apply_output_validators rest result w1
  end.

(** [BottomLayer.process] *)
Definition BottomLayer_process (input_data : Value) : M Value :=
  (fun w =>
     match input_buffer (bottom_base (bottom_layer w)) with
     | Some buffer =>
         let '(validation, w1) := validate buffer w in
         if ValidationStatus_eqb (status validation) FAILED
         then (Raised (mkExc "ValueError"
                         ("Input validation failed: " ++ message validation)), w1)
         else (Returned tt, w1)
     | None => (Returned tt, w)
     end) ;;;
  input_data' <- (fun w =>
     (Returned (apply_finalization_rules (finalization_rules (bottom_layer w)) input_data),
      w)) ;;
  result <- finalize_output input_data' ;;
  lift (fun w => (tt, apply_output_validators (output_validators (bottom_layer w)) result w)) ;;;
  ret result.

(** *** ThreeLayerOrchestrator *)

(** The [process] methods of the three stage objects the orchestrator
    was built with, as dynamic dispatch finds them. *)
Variable top_process : Value -> M Value.
Variable middle_process : Value -> M Value.
Variable bottom_process : Value -> M Value.

(** [ThreeLayerOrchestrator._log_execution].  The f-string of the
    [logger.info] call renders [details] with [str]. *)
Definition _log_execution (ev : string) (dt : Value) : M unit :=
  fun w =>
    let '(now, w1) := datetime_now w in
    let log_entry := mkLogEntry (isoformat now) ev dt in
    let w2 := set_execution_log (execution_log w1 ++ [log_entry]) w1 in
    match Py.str dt with
    | Raised e => (Raised e, w2)
    | Returned s =>
        (Returned tt, logger_info ("3-Layer Workflow: " ++ ev ++ " - " ++ s) w2)
    end.

(** The [try] block of [execute_workflow]. *)
Definition execute_workflow_body (initial_input : Value) : M Value :=
  _log_execution "workflow_start"
    (PyDict [(PyStr "input_type", PyStr (type_name initial_input))]) ;;;
  top_result <- top_process initial_input ;;
  top_to_middle_buffer <- lift (create_output_buffer TopStage MIDDLE top_result) ;;
  lift (fun w => (tt, set_input_buffer MiddleStage top_to_middle_buffer w)) ;;;
  middle_result <- middle_process top_result ;;
  middle_to_bottom_buffer <- lift (create_output_buffer MiddleStage BOTTOM middle_result) ;;
  lift (fun w => (tt, set_input_buffer BottomStage middle_to_bottom_buffer w)) ;;;
  final_result <- bottom_process middle_result ;;
  _log_execution "workflow_complete"
    (PyDict [(PyStr "output_type", PyStr (type_name final_result))]) ;;;
  ret final_result.

(** [ThreeLayerOrchestrator.execute_workflow] *)
Definition execute_workflow (initial_input : Value) : M Value :=
  try_except (execute_workflow_body initial_input)
    (fun e =>
       _log_execution "workflow_error" (PyDict [(PyStr "error", PyStr (exc_text e))]) ;;;
       raise e).

End Framework.

(* ================================================================== *)
(** ** Sample objects                                                   *)
(* ================================================================== *)

Module Samples.

(** A clock that advances by one at every reading. *)
Definition now_at (k : nat) : datetime := Z.of_nat k.

Definition isoformat (t : datetime) : string := "T" ++ repr_int t.

(** The expectation of test_framework.py's buffer test. *)
Definition permissive : LayerExpectation :=
  new_LayerExpectation MIDDLE
    (PyDict [(PyStr "type", PyStr "object")]) (PyDict [(PyStr "type", PyStr "object")])
    [] (PyDict []) (PyDict []).

(** An expectation of a subclass whose input check rejects everything. *)
Definition rejecting : LayerExpectation :=
  mkLayerExpectation MIDDLE (PyDict []) (PyDict []) [] (PyDict []) (PyDict [])
    (fun _ => Returned false) LayerExpectation_validate_output.


Definition test_data : Value := PyDict [(PyStr "test", PyStr "data")].

(** An object whose truth test raises, as an array of two elements
    does. *)
Definition ambiguous : Value :=
  PyObject "ndarray" (Raised (mkExc "ValueError" "The truth value of an array is ambiguous"))
    (Returned "[1 2]") (Returned "array([1, 2])").

Definition buffer_with (e : LayerExpectation) (d : Value) : DirectionBuffer :=
  mkDirectionBuffer TOP MIDDLE e d (PyDict [(PyStr "created", PyStr "2025-01-15T10:00:00Z")]) [].

Definition stage (t : LayerType) (inbound : option BufferRef) : LayerInterface :=
  mkLayerInterface t
    (new_LayerExpectation t (PyDict []) (PyDict [(PyStr "type", PyStr "string")])
       [] (PyDict []) (PyDict []))
    inbound None.

(** A world with one buffer object, attached (or not) to the middle and
    bottom stages, one quality gate and one output validator. *)
Definition world_with (b : DirectionBuffer) (inbound : option BufferRef) : World :=
  mkWorld (fun _ => b) 1 0 []
    (mkTopLayer (stage TOP None) (PyDict []) (PyDict []) (PyDict []))
    (mkMiddleLayer (stage MIDDLE inbound) (PyDict []) ["sufficient_evidence"])
    (mkBottomLayer (stage BOTTOM inbound) ["trim"] ["quality_score_valid"])
    [].

(** The hooks of simple_test.py, each an f-string over its input. *)
Definition formatted (prefix : string) (input_data : Value) : M Value :=
  fun w =>
    match Py.str input_data with
    | Returned s => (Returned (PyStr (prefix ++ s)), w)
    | Raised e => (Raised e, w)
    end.

Definition orchestrate : Value -> M Value := formatted "orchestrated: ".

Definition execute_core_logic : Value -> M Value := formatted "processed: ".

Definition finalize_output : Value -> M Value := formatted "finalized: ".

(** A core logic that fails. *)
Definition failing_core_logic (input_data : Value) : M Value :=
  raise (mkExc "RuntimeError" "agent unreachable").

(** A gate check and an output validator that always fail. *)
Definition failing_gate (gate_name : string) (d : Value) : bool := false.

(** The three stages of simple_test.py under one orchestrator, with the
    middle stage's core logic as a parameter. *)
Definition workflow (core_logic : Value -> M Value) : Value -> M Value :=
  execute_workflow now_at isoformat
    (TestTopLayer_process orchestrate)
    (MiddleLayer_process now_at core_logic MiddleLayer_check_quality_gate)
    (BottomLayer_process now_at finalize_output
       BottomLayer_apply_finalization_rule BottomLayer_validate_output).

(** The buffer of test_framework.py's validation test, unattached. *)
Definition world_test_data : World := world_with (buffer_with permissive test_data) None.

(** A permissive buffer whose payload has no truth value. *)
Definition world_ambiguous : World := world_with (buffer_with permissive ambiguous) None.

(** Buffers whose input check rejects, and raises. *)
Definition world_rejecting : World := world_with (buffer_with rejecting test_data) None.


(** The same buffers, attached as inbound buffer of the middle and the
    bottom stage. *)
Definition world_attached_permissive : World :=
  world_with (buffer_with permissive test_data) (Some 0).

Definition world_attached_rejecting : World :=
  world_with (buffer_with rejecting test_data) (Some 0).

End Samples.

(* ================================================================== *)
(** ** Vocabulary of the statements                                     *)
(* ================================================================== *)

Section Vocabulary.

Variable now_at : nat -> datetime.
Variable isoformat : datetime -> string.

(** The warnings a run over [names] emits: one per name whose check
    fails, in order. *)
Definition warnings_for (kind : string) (check : string -> Value -> bool)
    (names : list string) (result : Value) : list LogRecord :=
  map (fun name => mkLogRecord WARNING_LEVEL (kind ++ " '" ++ name ++ "' failed"))
      (filter (fun name => negb (check name result)) names).

(** The entry [_log_execution ev {key: val}] appends to the execution
    log at world [w]. *)
Definition entry_for (ev key val : string) (w : World) : LogEntry :=
  mkLogEntry (isoformat (now_at (clock_reads w))) ev (PyDict [(PyStr key, PyStr val)]).

(** The world after [_log_execution ev {key: val}]: the clock read once,
    the entry appended, the event reported on the logger. *)
Definition logged (ev key val : string) (w : World) : World :=
  logger_info
    ("3-Layer Workflow: " ++ ev ++ " - "
       ++ "{" ++ (repr_str key ++ ": " ++ repr_str val) ++ "}")
    (set_execution_log (execution_log w ++ [entry_for ev key val w])
       (set_clock_reads (S (clock_reads w)) w)).

(** The world after [create_output_buffer] on [source] followed by
    [set_input_buffer] on [consumer]. *)
Definition wired (source : StageId) (target : LayerType) (consumer : StageId)
    (d : Value) (w : World) : World :=
  set_input_buffer consumer
    (fst (create_output_buffer now_at isoformat source target d w))
    (snd (create_output_buffer now_at isoformat source target d w)).

End Vocabulary.

(* ================================================================== *)
(** ** The other methods of the framework                               *)
(* ================================================================== *)

(** [TopLayer.define_workflow] *)
Definition define_workflow (workflow : Value) (w : World) : World :=
  let t := top_layer w in
  set_top_layer (mkTopLayer (top_base t) workflow
                   (middle_layer_requirements t) (bottom_layer_requirements t)) w.

(** [TopLayer.set_middle_layer_requirements] *)
Definition set_middle_layer_requirements (requirements : Value) (w : World) : World :=
  let t := top_layer w in
  set_top_layer (mkTopLayer (top_base t) (workflow_definition t)
                   requirements (bottom_layer_requirements t)) w.

(** [TopLayer.set_bottom_layer_requirements] *)
Definition set_bottom_layer_requirements (requirements : Value) (w : World) : World :=
  let t := top_layer w in
  set_top_layer (mkTopLayer (top_base t) (workflow_definition t)
                   (middle_layer_requirements t) requirements) w.

(** [MiddleLayer.configure_processing] *)
Definition configure_processing (config : Value) (w : World) : World :=
  let m := middle_layer w in
  set_middle_layer (mkMiddleLayer (middle_base m) config (quality_gates m)) w.

(** [MiddleLayer.add_quality_gate] *)
Definition add_quality_gate (gate_name : string) (w : World) : World :=
  let m := middle_layer w in
  set_middle_layer
    (mkMiddleLayer (middle_base m) (processing_config m) (quality_gates m ++ [gate_name])) w.

(** [BottomLayer.add_finalization_rule] *)
Definition add_finalization_rule (rule : string) (w : World) : World :=
  let f := bottom_layer w in
  set_bottom_layer
    (mkBottomLayer (bottom_base f) (finalization_rules f ++ [rule]) (output_validators f)) w.

(** [BottomLayer.add_output_validator] *)
Definition add_output_validator (validator : string) (w : World) : World :=
  let f := bottom_layer w in
  set_bottom_layer
    (mkBottomLayer (bottom_base f) (finalization_rules f) (output_validators f ++ [validator])) w.

(** An item of [_collect_buffer_validations]: the dict with the keys
    [buffer] and [validation]. *)
Record CollectedValidation : Type := mkCollectedValidation {
  collected_buffer : string;
  collected_validation : BufferValidation
}.

(** [ThreeLayerOrchestrator._collect_buffer_validations] *)
Definition _collect_buffer_validations (w : World) : list CollectedValidation :=
  let validations : list CollectedValidation := [] in
  let validations :=
    match input_buffer (middle_base (middle_layer w)) with
    | Some r =>
        (validations
         ++ map (mkCollectedValidation "top_to_middle")
              (validation_results (buffers w r)))%list
    | None => validations
    end in
  let validations :=
    match input_buffer (bottom_base (bottom_layer w)) with
    | Some r =>
        (validations
         ++ map (mkCollectedValidation "middle_to_bottom")
              (validation_results (buffers w r)))%list
    | None => validations
    end in
  validations.

(** The dict [get_execution_summary] returns. *)
Record ExecutionSummary : Type := mkExecutionSummary {
  total_steps : nat;
  summary_execution_log : list LogEntry;
  buffer_validations : list CollectedValidation
}.

(** [ThreeLayerOrchestrator.get_execution_summary] *)
Definition get_execution_summary (w : World) : ExecutionSummary :=
  mkExecutionSummary (length (execution_log w)) (execution_log w)
    (_collect_buffer_validations w).

(** *** Further vocabulary *)

(** What a middle stage does once it is past the inbound validation,
    from world [w1] on: the hook's exception as it is, or the hook's
    result with the gate warnings logged. *)
Definition middle_outcome (execute_core_logic : Value -> M Value)
    (check : string -> Value -> bool) (input_data : Value) (w1 : World)
  : Result Value * World :=
  match execute_core_logic input_data w1 with
  | (Returned result, w2) =>
      (Returned result,
       set_logger (logger w2 ++ warnings_for "Quality gate" check
                                  (quality_gates (middle_layer w2)) result) w2)
  | (Raised e, w2) => (Raised e, w2)
  end.

(** The same for a bottom stage, whose hook gets the input the
    finalization rules made. *)
Definition bottom_outcome (finalize_output : Value -> M Value)
    (rule : string -> Value -> Value) (check : string -> Value -> bool)
    (input_data : Value) (w1 : World) : Result Value * World :=
  match finalize_output
          (apply_finalization_rules rule (finalization_rules (bottom_layer w1)) input_data)
          w1 with
  | (Returned result, w2) =>
      (Returned result,
       set_logger (logger w2 ++ warnings_for "Output validator" check
                                  (output_validators (bottom_layer w2)) result) w2)
  | (Raised e, w2) => (Raised e, w2)
  end.

(** The exception a stage raises on a [FAILED] inbound validation. *)
Definition validation_error (validation : BufferValidation) : Exc :=
  mkExc "ValueError" ("Input validation failed: " ++ message validation).

(** A stage method that leaves the orchestrator's execution log as it
    found it. *)
Definition keeps_log (p : Value -> M Value) : Prop :=
  forall input_data w, execution_log (snd (p input_data w)) = execution_log w.

(** A stage method that leaves the framework's objects (buffers, stages,
    execution log) as it found them; it may read the clock and log. *)
Definition keeps_objects (p : Value -> M Value) : Prop :=
  forall input_data w,
    let w' := snd (p input_data w) in
    buffers w' = buffers w /\ allocated w' = allocated w
    /\ top_layer w' = top_layer w /\ middle_layer w' = middle_layer w
    /\ bottom_layer w' = bottom_layer w /\ execution_log w' = execution_log w.

(* ================================================================== *)
(** ** The reviser and the claim extraction of fact_checking.py         *)
(* ================================================================== *)

Module FactChecking.

(** [class Claim] *)
Record Claim : Type := mkClaim {
  text : string;
  context : string;
  claim_type : string;
  source_sentence : string;
  importance : float
}.

(** [class Evidence] *)
Record Evidence : Type := mkEvidence {
  source_url : string;
  excerpt : string;
  relevance_score : float;
  credibility_score : float;
  evidence_timestamp : datetime
}.

(** [class ClaimVerification] *)
Record ClaimVerification : Type := mkClaimVerification {
  claim : Claim;
  verdict : string;
  confidence : float;
  evidence : list Evidence;
  justification : string
}.

(** [class CriticAnalysis] *)
Record CriticAnalysis : Type := mkCriticAnalysis {
  claims : list Claim;
  verifications : list ClaimVerification;
  overall_assessment : string;
  confidence_score : float;
  sources_consulted : list string
}.

(** [class RevisedResponse] *)
Record RevisedResponse : Type := mkRevisedResponse {
  original_answer : string;
  revised_answer : string;
  changes_made : list string;
  revision_reasoning : string;
  quality_score : float
}.

(** [FactCheckCritic._extract_claims]; [answer[:100]] is the first 100
    characters of the answer, or all of it when it is shorter. *)
Definition _extract_claims (answer question : string) : list Claim :=
  [mkClaim "Sample claim from answer" question "factual"
     (substring 0 100 answer ++ "...") 0.8%float].

(** [FactCheckReviser._analyze_required_changes] *)
Definition _analyze_required_changes (vs : list ClaimVerification) : list string :=
  fold_left
    (fun (changes : list string) verification =>
       if (verdict verification =? "inaccurate")%string
       then (changes
             ++ [("Correct inaccurate claim: " ++ text (claim verification))%string])%list
       else if (verdict verification =? "disputed")%string
       then (changes
             ++ [("Add nuance to disputed claim: " ++ text (claim verification))%string])%list
       else if (verdict verification =? "unsupported")%string
       then (changes
             ++ [("Soften unsupported claim: " ++ text (claim verification))%string])%list
       else changes)
    vs [].

(** [FactCheckReviser._apply_single_revision] *)
Definition _apply_single_revision (txt change : string) : string := txt.

(** [FactCheckReviser._apply_revisions] *)
Definition _apply_revisions (original : string) (vs : list ClaimVerification)
    (changes_needed : list string) : string :=
  match changes_needed with
  | [] => original
  | _ =>
      fold_left (fun revised change => _apply_single_revision revised change)
        changes_needed original
  end.

(** [FactCheckReviser._generate_revision_reasoning] *)
Definition _generate_revision_reasoning (changes : list string) (assessment : string)
  : string :=
  match changes with
  | [] => "No revisions needed. " ++ assessment
  | _ =>
      ("Made " ++ repr_int (Z.of_nat (length changes))
       ++ " revisions based on fact-checking analysis: " ++ assessment ++ ". ")
      ++ ("Changes: " ++ join ", " changes)
  end.

(** [FactCheckReviser._calculate_quality_score]; [min(1.0, x)] is [x]
    when [x < 1.0] and [1.0] otherwise. *)
Definition _calculate_quality_score (score : float) : float :=
  let base_score := score in
  let boosted := (base_score * 1.1)%float in
  if (boosted <? 1.0)%float then boosted else 1.0%float.

(** [FactCheckReviser.finalize_output] *)
Definition finalize_output (input_data : CriticAnalysis) : RevisedResponse :=
  let changes_needed := _analyze_required_changes (verifications input_data) in
  let revised := _apply_revisions EmptyString (verifications input_data) changes_needed in
  let reasoning :=
    _generate_revision_reasoning changes_needed (overall_assessment input_data) in
  let score := _calculate_quality_score (confidence_score input_data) in
  mkRevisedResponse EmptyString revised changes_needed reasoning score.

(** A verification the reviser acts on, and the change it asks for. *)
Definition flagged (v : ClaimVerification) : bool :=
  (verdict v =? "inaccurate")%string || (verdict v =? "disputed")%string
  || (verdict v =? "unsupported")%string.

Definition change_for (v : ClaimVerification) : string :=
  (if (verdict v =? "inaccurate")%string then "Correct inaccurate claim: "
   else if (verdict v =? "disputed")%string then "Add nuance to disputed claim: "
   else "Soften unsupported claim: ") ++ text (claim v).

(** The verification the mock critic produces for a claim, with another
    verdict. *)
Definition sample_verification (claim_text verdict_text : string) : ClaimVerification :=
  mkClaimVerification
    (mkClaim claim_text "What is the capital of France?" "factual" claim_text 0.8%float)
    verdict_text 0.85%float [] "Evidence from credible sources".

End FactChecking.

(* ================================================================== *)
(** ** Exceptions outside [Exception] and errors that cannot be printed *)
(* ================================================================== *)

(** The definitions above follow a call that returns or raises an
    instance of [Exception] whose text [str(e)] can be taken.  Python
    can raise two more kinds of exception, which the [except Exception]
    clauses of the framework treat differently: an instance of a class
    that derives from [BaseException] but not from [Exception]
    ([KeyboardInterrupt], [SystemExit], [asyncio.CancelledError] at an
    [await]), which no such clause catches; and an instance of
    [Exception] whose [__str__] raises, which is caught but makes the
    handler's own [str(e)] raise.  This module follows the same methods
    with every kind of exception. *)
Module Full.

(** Whatever a call may raise. *)
Inductive Thrown : Type :=
| Error (e : Exc)
| Unprintable (cls : string) (while_printing : Thrown)
| Escaping (cls : string) (txt : string).

(** How a call ends. *)
Inductive Completion (A : Type) : Type :=
| Normal (a : A)
| Threw (t : Thrown).
Arguments Normal {A} a.
Arguments Threw {A} t.

(** [isinstance(e, Exception)] *)
Definition is_Exception (t : Thrown) : bool :=
  match t with
  | Error _ => true
  | Unprintable _ _ => true
  | Escaping _ _ => false
  end.

(** [str(e)] *)
Definition thrown_str (t : Thrown) : Completion string :=
  match t with
  | Error e => Normal (exc_text e)
  | Unprintable _ t' => Threw t'
  | Escaping _ txt => Normal txt
  end.

Definition of_result {A} (r : Result A) : Completion A :=
  match r with
  | Returned a => Normal a
  | Raised e => Threw (Error e)
  end.

(** Computations in a world that end in any of these ways. *)
Definition C (A : Type) : Type := World -> Completion A * World.

Definition ret {A} (a : A) : C A := fun w => (Normal a, w).

Definition bind {A B} (c : C A) (k : A -> C B) : C B :=
  fun w =>
    match c w with
    | (Normal a, w') => k a w'
    | (Threw t, w') => (Threw t, w')
    end.

Definition lift {A} (c : World -> A * World) : C A :=
  fun w => let '(a, w') := c w in (Normal a, w').

(** A computation of the kind followed so far. *)
Definition of_m {A} (c : M A) : C A :=
  fun w => let '(r, w') := c w in (of_result r, w').

(** A stage method of the kind followed so far. *)
Definition of_stage (p : Value -> M Value) : Value -> C Value :=
  fun input_data => of_m (p input_data).

(** [try: body  except Exception as e: handler(e)]: an exception
    outside [Exception] passes through. *)
Definition try_except {A} (body : C A) (handler : Thrown -> C A) : C A :=
  fun w =>
    match body w with
    | (Normal a, w') => (Normal a, w')
    | (Threw t, w') => if is_Exception t then handler t w' else (Threw t, w')
    end.

Notation "x <~ c ;~ k" := (bind c (fun x => k))
  (at level 61, c at next level, right associativity).
Notation "c ;~~ k" := (bind c (fun _ => k))
  (at level 61, right associativity).

Section Operations.

Variable now_at : nat -> datetime.
Variable isoformat : datetime -> string.

(** What [expectations.validate_input(d)], [bool(d)] and [str(d)] do. *)
Variable check_input : LayerExpectation -> Value -> Completion bool.
Variable truth : Value -> Completion bool.
Variable render : Value -> Completion string.

(** [len(str(self.data)) if self.data else 0] *)
Definition payload_size (d : Value) : Completion Z :=
  match truth d with
  | Threw t => Threw t
  | Normal false => Normal 0%Z
  | Normal true =>
      match render d with
      | Threw t => Threw t
      | Normal s => Normal (Z.of_nat (String.length s))
      end
  end.

(** The [try] block of [DirectionBuffer.validate]. *)
Definition validate_body (self : BufferRef) : C BufferValidation :=
  fun w =>
    let b := buffers w self in
    match check_input (expectations b) (data b) with
    | Threw t => (Threw t, w)
    | Normal input_valid =>
        let st := if input_valid then PASSED else FAILED in
        let m := if input_valid then "Buffer validation passed"
                 else "Buffer validation failed" in
        let '(now, w1) := datetime_now now_at w in
        match payload_size (data b) with
        | Threw t => (Threw t, w1)
        | Normal size =>
            let validation :=
              mkBufferValidation st m now (source_layer b) (target_layer b) size
                (PyDict [(PyStr "input_valid", PyBool input_valid)]) in
            (Normal validation, append_validation_result self validation w1)
        end
    end.

(** The [except Exception as e] block of [DirectionBuffer.validate]; the
    message is built first, and [str(e)] may raise. *)
Definition validate_handler (self : BufferRef) (t : Thrown) : C BufferValidation :=
  fun w =>
    match thrown_str t with
    | Threw t' => (Threw t', w)
    | Normal s =>
        let '(now, w1) := datetime_now now_at w in
        let b := buffers w1 self in
        let validation :=
          mkBufferValidation FAILED ("Buffer validation error: " ++ s) now
            (source_layer b) (target_layer b) 0%Z
            (PyDict [(PyStr "error", PyStr s)]) in
        (Normal validation, append_validation_result self validation w1)
    end.

(** [DirectionBuffer.validate] *)
Definition validate (self : BufferRef) : C BufferValidation :=
  try_except (validate_body self) (validate_handler self).

(** The first statement of both [process] methods:
    [if self.input_buffer: validation = self.input_buffer.validate()]
    and [raise ValueError(...)] on a [FAILED] outcome.  A buffer object
    is always true. *)
Definition check_input_buffer (inbound : option BufferRef) : C unit :=
  fun w =>
    match inbound with
    | Some buffer =>
        match validate buffer w with
        | (Threw t, w1) => (Threw t, w1)
        | (Normal validation, w1) =>
            if ValidationStatus_eqb (status validation) FAILED
            then (Threw (Error (mkExc "ValueError"
                                  ("Input validation failed: " ++ message validation))),
                  w1)
            else (Normal tt, w1)
        end
    | None => (Normal tt, w)
    end.

(** *** MiddleLayer, with a hook and a gate check that may do
    anything a method can: change the world, raise. *)
Variable execute_core_logic : Value -> C Value.
Variable _check_quality_gate : string -> Value -> C bool.

(** [for gate in self.quality_gates: ...], over the list as read when
    the loop starts: this is the loop of the code for checks that do
    not change the list they are called from ([keeps_quality_gates]
    below), and the statements about it assume such checks. *)
Fixpoint apply_quality_gates (gates : list string) (result : Value) : C unit :=
  fun w =>
    match gates with
    | [] => (Normal tt, w)
    | gate :: rest =>
        match _check_quality_gate gate result w with
        | (Threw t, w1) => (Threw t, w1)
        | (Normal ok, w1) =>
            let w2 :=
              if negb ok
              then logger_warning ("Quality gate '" ++ gate ++ "' failed") w1
              else w1 in
            apply_quality_gates rest result w2
        end
    end.

(** [MiddleLayer.process] *)
Definition MiddleLayer_process (input_data : Value) : C Value :=
  (fun w => check_input_buffer (input_buffer (middle_base (middle_layer w))) w) ;~~
  result <~ execute_core_logic input_data ;~
  (fun w => apply_quality_gates (quality_gates (middle_layer w)) result w) ;~~
  ret result.

(** *** BottomLayer *)
Variable finalize_output : Value -> C Value.
Variable _apply_finalization_rule : string -> Value -> C Value.
Variable _validate_output : string -> Value -> C bool.

(** [for rule in self.finalization_rules: input_data = ...], for
    rules that do not change the list ([keeps_finalization_rules]). *)
Fixpoint apply_finalization_rules (rules : list string) (input_data : Value) : C Value :=
  fun w =>
    match rules with
    | [] => (Normal input_data, w)
    | rule :: rest =>
        match _apply_finalization_rule rule input_data w with
        | (Threw t, w1) => (Threw t, w1)
        | (Normal input_data', w1) => apply_finalization_rules rest input_data' w1
        end
    end.

(** [for validator in self.output_validators: ...], for validators
    that do not change the list ([keeps_output_validators]). *)
Fixpoint apply_output_validators (validators : list string) (result : Value) : C unit :=
  fun w =>
    match validators with
    | [] => (Normal tt, w)
    | validator :: rest =>
        match _validate_output validator result w with
        | (Threw t, w1) => (Threw t, w1)
        | (Normal ok, w1) =>
            let w2 :=
              if negb ok
              then logger_warning ("Output validator '" ++ validator ++ "' failed") w1
              else w1 in
            apply_output_validators rest result w2
        end
    end.

(** [BottomLayer.process] *)
Definition BottomLayer_process (input_data : Value) : C Value :=
  (fun w => check_input_buffer (input_buffer (bottom_base (bottom_layer w))) w) ;~~
  input_data' <~ (fun w =>
     apply_finalization_rules (finalization_rules (bottom_layer w)) input_data w) ;~
  result <~ finalize_output input_data' ;~
  (fun w => apply_output_validators (output_validators (bottom_layer w)) result w) ;~~
  ret result.

(** *** ThreeLayerOrchestrator *)
Variable top_process : Value -> C Value.
Variable middle_process : Value -> C Value.
Variable bottom_process : Value -> C Value.

(** The [try] block of [execute_workflow]. *)
Definition execute_workflow_body (initial_input : Value) : C Value :=
  of_m (_log_execution now_at isoformat "workflow_start"
          (PyDict [(PyStr "input_type", PyStr (type_name initial_input))])) ;~~
  top_result <~ top_process initial_input ;~
  top_to_middle_buffer <~
    lift (create_output_buffer now_at isoformat TopStage MIDDLE top_result) ;~
  lift (fun w => (tt, set_input_buffer MiddleStage top_to_middle_buffer w)) ;~~
  middle_result <~ middle_process top_result ;~
  middle_to_bottom_buffer <~
    lift (create_output_buffer now_at isoformat MiddleStage BOTTOM middle_result) ;~
  lift (fun w => (tt, set_input_buffer BottomStage middle_to_bottom_buffer w)) ;~~
  final_result <~ bottom_process middle_result ;~
  of_m (_log_execution now_at isoformat "workflow_complete"
          (PyDict [(PyStr "output_type", PyStr (type_name final_result))])) ;~~
  ret final_result.

(** [ThreeLayerOrchestrator.execute_workflow]; in the handler the
    details dict, and so [str(e)], is built before the call of
    [_log_execution]. *)
Definition execute_workflow (initial_input : Value) : C Value :=
  try_except (execute_workflow_body initial_input)
    (fun t =>
       s <~ (fun w => (thrown_str t, w)) ;~
       of_m (_log_execution now_at isoformat "workflow_error"
               (PyDict [(PyStr "error", PyStr s)])) ;~~
       (fun w => (Threw t, w))).

End Operations.

(** A stage method that leaves the orchestrator's execution log as it
    found it. *)
Definition keeps_log (p : Value -> C Value) : Prop :=
  forall input_data w, execution_log (snd (p input_data w)) = execution_log w.

(** Checks and rules that leave the list they are called from as they
    found it. *)
Definition keeps_quality_gates (check : string -> Value -> C bool) : Prop :=
  forall gate d w,
    quality_gates (middle_layer (snd (check gate d w))) = quality_gates (middle_layer w).

Definition keeps_finalization_rules (rule : string -> Value -> C Value) : Prop :=
  forall name d w,
    finalization_rules (bottom_layer (snd (rule name d w)))
    = finalization_rules (bottom_layer w).

Definition keeps_output_validators (check : string -> Value -> C bool) : Prop :=
  forall validator d w,
    output_validators (bottom_layer (snd (check validator d w)))
    = output_validators (bottom_layer w).

(** The callbacks of the definitions above, which raise nothing but
    printable instances of [Exception]. *)
Definition ordinary_check (x : LayerExpectation) (d : Value) : Completion bool :=
  of_result (validate_input x d).

Definition ordinary_truth (d : Value) : Completion bool := of_result (truthy d).

Definition ordinary_render (d : Value) : Completion string := of_result (Py.str d).

(** A check and a rule that only compute an answer. *)
Definition pure_check (check : string -> Value -> bool) : string -> Value -> C bool :=
  fun name d w => (Normal (check name d), w).

Definition pure_rule (rule : string -> Value -> Value) : string -> Value -> C Value :=
  fun name d w => (Normal (rule name d), w).

End Full.

(* ================================================================== *)
(** ** The top stage classes of the repository                          *)
(* ================================================================== *)

(** [LayerInterface], [TopLayer] and the classes that derive from
    [TopLayer]: fact_checking.py, adapters.py, simplified_demo.py,
    simple_test.py. *)
Inductive TopClass : Type :=
| LayerInterface_class
| TopLayer_class
| FactCheckAuditor_class
| A2AAuditorAdapter_class
| ADKAuditorAdapter_class
| SimpleAuditor_class
| TestTopLayer_class.

(** The base class named in the [class] statement. *)
Definition base_of (c : TopClass) : option TopClass :=
  match c with
  | LayerInterface_class => None
  | TopLayer_class => Some LayerInterface_class
  | FactCheckAuditor_class => Some TopLayer_class
  | A2AAuditorAdapter_class => Some FactCheckAuditor_class
  | ADKAuditorAdapter_class => Some FactCheckAuditor_class
  | SimpleAuditor_class => Some TopLayer_class
  | TestTopLayer_class => Some TopLayer_class
  end.

(** What a class body says about [process]: nothing, an abstract
    declaration, or a body, given as a function of what
    [self.orchestrate] resolves to. *)
Inductive MethodEntry : Type :=
| Abstract
| Body (body : (Value -> M Value) -> Value -> M Value).

Definition own_process (c : TopClass) : option MethodEntry :=
  match c with
  | LayerInterface_class => Some Abstract
  | TopLayer_class => None
  | FactCheckAuditor_class => Some (Body FactCheckAuditor_process)
  | A2AAuditorAdapter_class => None
  | ADKAuditorAdapter_class => None
  | SimpleAuditor_class => Some (Body SimpleAuditor_process)
  | TestTopLayer_class => Some (Body TestTopLayer_process)
  end.

(** Attribute lookup along the chain of base classes, which is at most
    four classes long. *)
Fixpoint resolve_process_within (fuel : nat) (c : TopClass) : option MethodEntry :=
  match own_process c with
  | Some entry => Some entry
  | None =>
      match fuel, base_of c with
      | S fuel', Some base => resolve_process_within fuel' base
      | _, _ => None
      end
  end.

Definition resolve_process (c : TopClass) : option MethodEntry :=
  resolve_process_within 4 c.

(** What a class body says about [orchestrate]: [TopLayer] declares
    it abstract; the auditors, the adapters (which override the one of
    [FactCheckAuditor]) and the test class define it. *)
Inductive OrchestrateEntry : Type :=
| AbstractOrchestrate
| OwnOrchestrate.

Definition own_orchestrate (c : TopClass) : option OrchestrateEntry :=
  match c with
  | LayerInterface_class => None
  | TopLayer_class => Some AbstractOrchestrate
  | FactCheckAuditor_class => Some OwnOrchestrate
  | A2AAuditorAdapter_class => Some OwnOrchestrate
  | ADKAuditorAdapter_class => Some OwnOrchestrate
  | SimpleAuditor_class => Some OwnOrchestrate
  | TestTopLayer_class => Some OwnOrchestrate
  end.

(** The class whose [orchestrate] an instance of [c] runs. *)
Fixpoint resolve_orchestrate_within (fuel : nat) (c : TopClass) : option TopClass :=
  match own_orchestrate c with
  | Some OwnOrchestrate => Some c
  | Some AbstractOrchestrate => None
  | None =>
      match fuel, base_of c with
      | S fuel', Some base => resolve_orchestrate_within fuel' base
      | _, _ => None
      end
  end.

Definition resolve_orchestrate (c : TopClass) : option TopClass :=
  resolve_orchestrate_within 4 c.

(** [await stage.process(input_data)] on an instance of [c], where
    [orchestrate_of d] is the body of the [orchestrate] that class [d]
    defines: the [process] found along the base classes runs with
    [self.orchestrate] bound to the [orchestrate] found from [c].  A
    class with an abstract method left cannot be instantiated. *)
Definition call_process (orchestrate_of : TopClass -> Value -> M Value) (c : TopClass)
    : option (Value -> M Value) :=
  match resolve_process c, resolve_orchestrate c with
  | Some (Body body), Some d => Some (body (orchestrate_of d))
  | _, _ => None
  end.




(** Callbacks and stages that raise what [except Exception] does not
    catch, or what cannot be printed. *)
Module FullSamples.



(** A stage cancelled at its [await]. *)
Definition cancelled (input_data : Value) : Full.C Value :=
  fun w => (Full.Threw (Full.Escaping "CancelledError" EmptyString), w).

(** A stage that raises an error whose [__str__] returns no text. *)
Definition unprintable_failure (input_data : Value) : Full.C Value :=
  fun w =>
    (Full.Threw
       (Full.Unprintable "RuntimeError"
          (Full.Error (mkExc "TypeError" "__str__ returned non-string (type NoneType)"))),
     w).

(** The orchestrator of simple_test.py with another middle stage. *)
Definition workflow (middle : Value -> Full.C Value) : Value -> Full.C Value :=
  Full.execute_workflow Samples.now_at Samples.isoformat
    (Full.of_stage (TestTopLayer_process Samples.orchestrate))
    middle
    (Full.of_stage (BottomLayer_process Samples.now_at Samples.finalize_output
                      BottomLayer_apply_finalization_rule BottomLayer_validate_output)).

(** A gate check and an output validator that always fail. *)
Definition failing_gate : string -> Value -> Full.C bool :=
  Full.pure_check Samples.failing_gate.

(** The base finalization rule. *)
Definition identity_rule : string -> Value -> Full.C Value :=
  Full.pure_rule BottomLayer_apply_finalization_rule.

(** A gate check that raises. *)
Definition raising_gate (gate_name : string) (d : Value) : Full.C bool :=
  fun w => (Full.Threw (Full.Error (mkExc "KeyError" "'confidence'")), w).

End FullSamples.

(* ================================================================== *)
(** ** Properties                                                       *)
(* ================================================================== *)

Section ValidateProperties.

Variable now_at : nat -> datetime.

Lemma buffers_store_same r b w : buffers (store_buffer r b w) r = b.
Proof. unfold store_buffer; simpl. now rewrite Nat.eqb_refl. Qed.

Lemma buffers_store_other r r' b w :
  r' <> r -> buffers (store_buffer r b w) r' = buffers w r'.
Proof.
  intros Hne. unfold store_buffer; simpl.
  destruct (Nat.eqb_spec r' r); congruence.
Qed.

Lemma append_validation_result_history self v w :
  validation_results (buffers (append_validation_result self v w) self)
  = (validation_results (buffers w self) ++ [v])%list.
Proof. unfold append_validation_result. now rewrite buffers_store_same. Qed.


(** The three ways through [validate], by what the input check and the
    size computation do. *)
Lemma validate_normal self w input_valid size :
  let b := buffers w self in
  validate_input (expectations b) (data b) = Returned input_valid ->
  payload_size (data b) = Returned size ->
  let v := mkBufferValidation
             (if input_valid then PASSED else FAILED)
             (if input_valid then "Buffer validation passed" else "Buffer validation failed")
             (now_at (clock_reads w)) (source_layer b) (target_layer b) size
             (PyDict [(PyStr "input_valid", PyBool input_valid)]) in
  validate now_at self w
  = (v, append_validation_result self v (set_clock_reads (S (clock_reads w)) w)).
Proof.
  intros b Hin Hsize v. unfold validate, validate_body, datetime_now.
  fold b. rewrite Hin, Hsize. reflexivity.
Qed.

Lemma validate_check_raises self w e :
  let b := buffers w self in
  validate_input (expectations b) (data b) = Raised e ->
  let v := mkBufferValidation FAILED ("Buffer validation error: " ++ exc_text e)
             (now_at (clock_reads w)) (source_layer b) (target_layer b) 0%Z
             (PyDict [(PyStr "error", PyStr (exc_text e))]) in
  validate now_at self w
  = (v, append_validation_result self v (set_clock_reads (S (clock_reads w)) w)).
Proof.
  intros b Hin v. unfold validate, validate_body.
  fold b. rewrite Hin. reflexivity.
Qed.

Lemma validate_size_raises self w input_valid e :
  let b := buffers w self in
  validate_input (expectations b) (data b) = Returned input_valid ->
  payload_size (data b) = Raised e ->
  let v := mkBufferValidation FAILED ("Buffer validation error: " ++ exc_text e)
             (now_at (S (clock_reads w))) (source_layer b) (target_layer b) 0%Z
             (PyDict [(PyStr "error", PyStr (exc_text e))]) in
  validate now_at self w
  = (v, append_validation_result self v (set_clock_reads (S (S (clock_reads w))) w)).
Proof.
  intros b Hin Hsize v. unfold validate, validate_body, datetime_now.
  fold b. rewrite Hin, Hsize. reflexivity.
Qed.




(** C7, as the code has it: when the size of the payload can be
    computed, an input check that returns true gives a [PASSED] outcome
    with message [Buffer validation passed], and one that returns false
    gives a [FAILED] outcome with message [Buffer validation failed]. *)
Theorem validate_result_contents (self : BufferRef) (w : World) (size : Z) :
  let b := buffers w self in
  let v := fst (validate now_at self w) in
  payload_size (data b) = Returned size ->
  (validate_input (expectations b) (data b) = Returned true ->
     status v = PASSED /\ message v = "Buffer validation passed")
  /\ (validate_input (expectations b) (data b) = Returned false ->
     status v = FAILED /\ message v = "Buffer validation failed").
Proof.
  intros b v Hsize. subst v.
  split; intros Hin; rewrite (validate_normal self w Hin Hsize); simpl; auto.
Qed.


(** C10. The core validation path only produces [PASSED] and [FAILED]
    outcomes, on the normal branch and on the exception branch alike. *)
Theorem validate_status_passed_or_failed (self : BufferRef) (w : World) :
  (status (fst (validate now_at self w)) = PASSED
   \/ status (fst (validate now_at self w)) = FAILED)
  /\ status (fst (validate now_at self w)) <> WARNING.
Proof.
  assert (H : status (fst (validate now_at self w)) = PASSED
              \/ status (fst (validate now_at self w)) = FAILED);
    [|split; [exact H|destruct H as [H|H]; rewrite H; discriminate]].
  destruct (validate_input (expectations (buffers w self)) (data (buffers w self)))
    as [iv|e] eqn:Hin.
  - destruct (payload_size (data (buffers w self))) as [size|e] eqn:Hsize.
    + rewrite (validate_normal self w Hin Hsize). simpl. destruct iv; auto.
    + rewrite (validate_size_raises self w Hin Hsize). simpl. auto.
  - rewrite (validate_check_raises self w Hin). simpl. auto.
Qed.

End ValidateProperties.

Section StageProperties.

Variable now_at : nat -> datetime.
Variable isoformat : datetime -> string.

Lemma set_logger_same w : set_logger (logger w) w = w.
Proof. now destruct w. Qed.

Lemma apply_quality_gates_warnings check gates result w :
  apply_quality_gates check gates result w
  = set_logger (logger w ++ warnings_for "Quality gate" check gates result) w.
Proof.
  revert w. induction gates as [|gate rest IH]; intros w.
  - simpl. unfold warnings_for. simpl. now rewrite app_nil_r, set_logger_same.
  - simpl. rewrite IH. unfold warnings_for. simpl.
    destruct (check gate result); simpl.
    + reflexivity.
    + unfold logger_warning, set_logger. simpl. now rewrite <- app_assoc.
Qed.

Lemma apply_output_validators_warnings check validators result w :
  apply_output_validators check validators result w
  = set_logger (logger w ++ warnings_for "Output validator" check validators result) w.
Proof.
  revert w. induction validators as [|validator rest IH]; intros w.
  - simpl. unfold warnings_for. simpl. now rewrite app_nil_r, set_logger_same.
  - simpl. rewrite IH. unfold warnings_for. simpl.
    destruct (check validator result); simpl.
    + reflexivity.
    + unfold logger_warning, set_logger. simpl. now rewrite <- app_assoc.
Qed.

Lemma warnings_for_In kind check names result name :
  In name names -> check name result = false ->
  In (mkLogRecord WARNING_LEVEL (kind ++ " '" ++ name ++ "' failed"))
     (warnings_for kind check names result).
Proof.
  intros Hin Hfail. unfold warnings_for.
  apply (in_map (fun n => mkLogRecord WARNING_LEVEL (kind ++ " '" ++ n ++ "' failed"))).
  apply filter_In. split; [assumption|]. now rewrite Hfail.
Qed.

Lemma ValidationStatus_eqb_spec a b : ValidationStatus_eqb a b = true <-> a = b.
Proof. destruct a, b; simpl; split; congruence. Qed.

Lemma ValidationStatus_eqb_false a b : a <> b -> ValidationStatus_eqb a b = false.
Proof. destruct a, b; simpl; congruence. Qed.

Section Middle.

Variable execute_core_logic : Value -> M Value.
Variable _check_quality_gate : string -> Value -> bool.

Let process := MiddleLayer_process now_at execute_core_logic _check_quality_gate.

Lemma MiddleLayer_process_blocked input w buffer :
  input_buffer (middle_base (middle_layer w)) = Some buffer ->
  status (fst (validate now_at buffer w)) = FAILED ->
  process input w
  = (Raised (mkExc "ValueError"
               ("Input validation failed: " ++ message (fst (validate now_at buffer w)))),
     snd (validate now_at buffer w)).
Proof.
  intros Hbuf Hst. unfold process, MiddleLayer_process, bind. rewrite Hbuf.
  destruct (validate now_at buffer w) as [v w1]. simpl in *. now rewrite Hst.
Qed.

Lemma MiddleLayer_process_passed input w buffer result w2 :
  input_buffer (middle_base (middle_layer w)) = Some buffer ->
  status (fst (validate now_at buffer w)) <> FAILED ->
  execute_core_logic input (snd (validate now_at buffer w)) = (Returned result, w2) ->
  process input w
  = (Returned result,
     set_logger
       (logger w2 ++ warnings_for "Quality gate" _check_quality_gate
                       (quality_gates (middle_layer w2)) result) w2).
Proof.
  intros Hbuf Hst Hcore. unfold process, MiddleLayer_process, bind, lift, ret.
  rewrite Hbuf.
  destruct (validate now_at buffer w) as [v w1]. simpl in *.
  rewrite (ValidationStatus_eqb_false Hst), Hcore.
  now rewrite apply_quality_gates_warnings.
Qed.

End Middle.

Section Bottom.

Variable finalize_output : Value -> M Value.
Variable _apply_finalization_rule : string -> Value -> Value.
Variable _validate_output : string -> Value -> bool.

Let process :=
  BottomLayer_process now_at finalize_output _apply_finalization_rule _validate_output.

Lemma BottomLayer_process_blocked input w buffer :
  input_buffer (bottom_base (bottom_layer w)) = Some buffer ->
  status (fst (validate now_at buffer w)) = FAILED ->
  process input w
  = (Raised (mkExc "ValueError"
               ("Input validation failed: " ++ message (fst (validate now_at buffer w)))),
     snd (validate now_at buffer w)).
Proof.
  intros Hbuf Hst. unfold process, BottomLayer_process, bind. rewrite Hbuf.
  destruct (validate now_at buffer w) as [v w1]. simpl in *. now rewrite Hst.
Qed.

Lemma BottomLayer_process_passed input w buffer result w2 :
  let w1 := snd (validate now_at buffer w) in
  input_buffer (bottom_base (bottom_layer w)) = Some buffer ->
  status (fst (validate now_at buffer w)) <> FAILED ->
  finalize_output
    (apply_finalization_rules _apply_finalization_rule
       (finalization_rules (bottom_layer w1)) input) w1
  = (Returned result, w2) ->
  process input w
  = (Returned result,
     set_logger
       (logger w2 ++ warnings_for "Output validator" _validate_output
                       (output_validators (bottom_layer w2)) result) w2).
Proof.
  intros w1 Hbuf Hst Hfin. subst w1.
  unfold process, BottomLayer_process, bind, lift, ret.
  rewrite Hbuf.
  destruct (validate now_at buffer w) as [v w1]. simpl in *.
  rewrite (ValidationStatus_eqb_false Hst), Hfin.
  now rewrite apply_output_validators_warnings.
Qed.

End Bottom.

(** C1. Blocking inbound validation, advisory gates.  For a middle stage
    whose inbound buffer is set: when its validation outcome is [FAILED],
    [process] raises a [ValueError] carrying the outcome's message and
    the world is the one [validate] left, whatever [execute_core_logic]
    is (it has not run); when the outcome is not [FAILED] and
    [execute_core_logic] returns, [process] returns that very result and
    the only further effect is one logger warning per failing quality
    gate.  The bottom stage does the same with [finalize_output] (on the
    input transformed by the finalization rules) and its output
    validators. *)
Theorem blocking_then_advisory
    (execute_core_logic finalize_output : Value -> M Value)
    (_check_quality_gate _validate_output : string -> Value -> bool)
    (_apply_finalization_rule : string -> Value -> Value)
    (input : Value) (w : World) (buffer : BufferRef) :
  let validation := fst (validate now_at buffer w) in
  let w1 := snd (validate now_at buffer w) in
  let error := mkExc "ValueError" ("Input validation failed: " ++ message validation) in
  let middle := MiddleLayer_process now_at execute_core_logic _check_quality_gate in
  let bottom :=
    BottomLayer_process now_at finalize_output _apply_finalization_rule _validate_output in
  (input_buffer (middle_base (middle_layer w)) = Some buffer ->
     (status validation = FAILED -> middle input w = (Raised error, w1))
     /\ (status validation <> FAILED ->
         forall result w2,
           execute_core_logic input w1 = (Returned result, w2) ->
           middle input w
           = (Returned result,
              set_logger (logger w2 ++ warnings_for "Quality gate" _check_quality_gate
                                         (quality_gates (middle_layer w2)) result) w2)
           /\ (forall gate,
                 In gate (quality_gates (middle_layer w2)) ->
                 _check_quality_gate gate result = false ->
                 In (mkLogRecord WARNING_LEVEL ("Quality gate '" ++ gate ++ "' failed"))
                    (logger (snd (middle input w))))))
  /\
  (input_buffer (bottom_base (bottom_layer w)) = Some buffer ->
     (status validation = FAILED -> bottom input w = (Raised error, w1))
     /\ (status validation <> FAILED ->
         forall result w2,
           finalize_output
             (apply_finalization_rules _apply_finalization_rule
                (finalization_rules (bottom_layer w1)) input) w1
           = (Returned result, w2) ->
           bottom input w
           = (Returned result,
              set_logger (logger w2 ++ warnings_for "Output validator" _validate_output
                                         (output_validators (bottom_layer w2)) result) w2)
           /\ (forall validator,
                 In validator (output_validators (bottom_layer w2)) ->
                 _validate_output validator result = false ->
                 In (mkLogRecord WARNING_LEVEL
                       ("Output validator '" ++ validator ++ "' failed"))
                    (logger (snd (bottom input w))))))
.
Proof.
  intros validation w1 error middle bottom. split; intros Hbuf; split.
  - intros Hst. apply MiddleLayer_process_blocked; assumption.
  - intros Hst result w2 Hcore.
    pose proof (@MiddleLayer_process_passed execute_core_logic _check_quality_gate
                  input w buffer result w2 Hbuf Hst Hcore) as Hp.
    split; [exact Hp|].
    intros gate Hin Hfail. subst middle. rewrite Hp. simpl.
    apply in_or_app. right. apply (warnings_for_In "Quality gate"); assumption.
  - intros Hst. apply BottomLayer_process_blocked; assumption.
  - intros Hst result w2 Hfin.
    pose proof (@BottomLayer_process_passed finalize_output _apply_finalization_rule
                  _validate_output input w buffer result w2 Hbuf Hst Hfin) as Hp.
    split; [exact Hp|].
    intros validator Hin Hfail. subst bottom. rewrite Hp. simpl.
    apply in_or_app. right. apply (warnings_for_In "Output validator"); assumption.
Qed.

(** C3. The buffer [create_output_buffer] builds: its source is the
    creating stage's own kind, its target the requested one, its
    expectation is a plain [LayerExpectation] for the target whose input
    schema is the creating stage's output schema, it carries the data,
    its history is empty, it is a new object, and it is the creating
    stage's output buffer afterwards. *)
Theorem create_output_buffer_spec
    (self : StageId) (target : LayerType) (d : Value) (w : World) :
  let s := layer_base self w in
  let buffer := fst (create_output_buffer now_at isoformat self target d w) in
  let w' := snd (create_output_buffer now_at isoformat self target d w) in
  let b := buffers w' buffer in
  source_layer b = stage_layer_type s
  /\ target_layer b = target
  /\ layer_type (expectations b) = target
  /\ input_schema (expectations b) = output_schema (stage_expectations s)
  /\ (forall x, validate_input (expectations b) x = Returned true)
  /\ data b = d
  /\ validation_results b = []
  /\ output_buffer (layer_base self w') = Some buffer
  /\ stage_layer_type (layer_base self w') = stage_layer_type s
  /\ stage_expectations (layer_base self w') = stage_expectations s
  /\ input_buffer (layer_base self w') = input_buffer s
  /\ buffer = allocated w
  /\ allocated w' = S (allocated w)
  /\ (forall other, other <> buffer -> buffers w' other = buffers w other).
Proof.
  unfold create_output_buffer, datetime_now, new_buffer.
  destruct self; simpl; rewrite Nat.eqb_refl; simpl;
    repeat (split; [reflexivity|]);
    intros other Hne; destruct (Nat.eqb_spec other (allocated w)); congruence.
Qed.

End StageProperties.


Section OrchestratorProperties.

Variable now_at : nat -> datetime.
Variable isoformat : datetime -> string.
Variable top_process : Value -> M Value.
Variable middle_process : Value -> M Value.
Variable bottom_process : Value -> M Value.

Let run := execute_workflow now_at isoformat top_process middle_process bottom_process.
Let body := execute_workflow_body now_at isoformat top_process middle_process bottom_process.
Let log := logged now_at isoformat.
Let wire := wired now_at isoformat.

(** The three [details] dicts of [execute_workflow] hold one text
    under one key, which [str] always renders: those calls of
    [_log_execution] return. *)
Lemma _log_execution_returns ev key val w :
  _log_execution now_at isoformat ev (PyDict [(PyStr key, PyStr val)]) w
  = (Returned tt, log ev key val w).
Proof. reflexivity. Qed.

Lemma execution_log_logged ev key val w :
  execution_log (log ev key val w)
  = (execution_log w ++ [entry_for now_at isoformat ev key val w])%list.
Proof. reflexivity. Qed.

Lemma lift_pair (A : Type) (c : World -> A * World) (w : World) :
  lift c w = (Returned (fst (c w)), snd (c w)).
Proof. unfold lift. now destruct (c w). Qed.

(** The [try] block, step by step. *)
Lemma execute_workflow_body_steps initial_input w :
  body initial_input w
  = match top_process initial_input
            (log "workflow_start" "input_type" (type_name initial_input) w) with
    | (Raised e, w2) => (Raised e, w2)
    | (Returned top_result, w2) =>
        match middle_process top_result (wire TopStage MIDDLE MiddleStage top_result w2) with
        | (Raised e, w5) => (Raised e, w5)
        | (Returned middle_result, w5) =>
            match bottom_process middle_result
                    (wire MiddleStage BOTTOM BottomStage middle_result w5) with
            | (Raised e, w8) => (Raised e, w8)
            | (Returned final_result, w8) =>
                (Returned final_result,
                 log "workflow_complete" "output_type" (type_name final_result) w8)
            end
        end
    end.
Proof.
  unfold body, execute_workflow_body, bind.
  rewrite _log_execution_returns.
  destruct (top_process initial_input _) as [[top_result|e] w2]; [|reflexivity].
  rewrite !lift_pair. cbn [fst snd].
  change (set_input_buffer MiddleStage _ _)
    with (wire TopStage MIDDLE MiddleStage top_result w2).
  destruct (middle_process top_result _) as [[middle_result|e] w5]; [|reflexivity].
  rewrite !lift_pair. cbn [fst snd].
  change (set_input_buffer BottomStage _ _)
    with (wire MiddleStage BOTTOM BottomStage middle_result w5).
  destruct (bottom_process middle_result _) as [[final_result|e] w8]; [|reflexivity].
  rewrite _log_execution_returns. reflexivity.
Qed.

Lemma execute_workflow_of_body initial_input w :
  run initial_input w
  = match body initial_input w with
    | (Returned v, w') => (Returned v, w')
    | (Raised e, w1) => (Raised e, log "workflow_error" "error" (exc_text e) w1)
    end.
Proof.
  unfold run, execute_workflow, try_except. fold body.
  destruct (body initial_input w) as [[v|e] w1]; [reflexivity|].
  unfold bind. rewrite _log_execution_returns. reflexivity.
Qed.

(** What [create_output_buffer] on [source] followed by
    [set_input_buffer] on another stage [consumer] leaves. *)
Lemma wired_spec source target consumer d w :
  source <> consumer ->
  let w' := wire source target consumer d w in
  let buffer := allocated w in
  input_buffer (layer_base consumer w') = Some buffer
  /\ output_buffer (layer_base source w') = Some buffer
  /\ data (buffers w' buffer) = d
  /\ source_layer (buffers w' buffer) = stage_layer_type (layer_base source w)
  /\ target_layer (buffers w' buffer) = target
  /\ validation_results (buffers w' buffer) = [].
Proof.
  intros Hne. unfold wire, wired, set_input_buffer, create_output_buffer,
    datetime_now, new_buffer.
  destruct source, consumer; try congruence; simpl; rewrite Nat.eqb_refl; simpl;
    repeat split.
Qed.

(** C6. Workflow sequencing: [execute_workflow] returns [final_result]
    exactly when, in this order, [workflow_start] is logged, the top
    stage's [process] returns [top_result] on the initial input, a
    top-to-middle buffer holding [top_result] is created and set as the
    middle stage's input buffer, the middle stage's [process] returns
    [middle_result] on [top_result] itself, a middle-to-bottom buffer
    holding [middle_result] is created and set as the bottom stage's
    input buffer, the bottom stage's [process] returns [final_result]
    on [middle_result], and [workflow_complete] is logged; each step
    starts in the world the previous one left.  Logging an event reads
    the clock, appends the entry with the event's name and details to
    the execution log, reports it on the logger and touches nothing
    else: the log after the first step is the old one with the
    [workflow_start] entry, and the log of the final world is the one
    the bottom stage left with the [workflow_complete] entry. *)
Theorem execute_workflow_sequence (initial_input final_result : Value) (w w' : World) :
  (run initial_input w = (Returned final_result, w') <->
   exists top_result w2 middle_result w5 w8,
     let w1 := log "workflow_start" "input_type" (type_name initial_input) w in
     let w4 := wire TopStage MIDDLE MiddleStage top_result w2 in
     let w7 := wire MiddleStage BOTTOM BottomStage middle_result w5 in
     top_process initial_input w1 = (Returned top_result, w2)
     /\ middle_process top_result w4 = (Returned middle_result, w5)
     /\ bottom_process middle_result w7 = (Returned final_result, w8)
     /\ w' = log "workflow_complete" "output_type" (type_name final_result) w8
     /\ execution_log w1
        = (execution_log w
           ++ [mkLogEntry (isoformat (now_at (clock_reads w))) "workflow_start"
                 (PyDict [(PyStr "input_type", PyStr (type_name initial_input))])])%list
     /\ execution_log w4 = execution_log w2
     /\ execution_log w7 = execution_log w5
     /\ execution_log w'
        = (execution_log w8
           ++ [mkLogEntry (isoformat (now_at (clock_reads w8))) "workflow_complete"
                 (PyDict [(PyStr "output_type", PyStr (type_name final_result))])])%list)
  /\ (forall top_result w2,
        let w4 := wire TopStage MIDDLE MiddleStage top_result w2 in
        input_buffer (middle_base (middle_layer w4)) = Some (allocated w2)
        /\ output_buffer (top_base (top_layer w4)) = Some (allocated w2)
        /\ data (buffers w4 (allocated w2)) = top_result
        /\ source_layer (buffers w4 (allocated w2))
           = stage_layer_type (top_base (top_layer w2))
        /\ target_layer (buffers w4 (allocated w2)) = MIDDLE
        /\ validation_results (buffers w4 (allocated w2)) = [])
  /\ (forall middle_result w5,
        let w7 := wire MiddleStage BOTTOM BottomStage middle_result w5 in
        input_buffer (bottom_base (bottom_layer w7)) = Some (allocated w5)
        /\ output_buffer (middle_base (middle_layer w7)) = Some (allocated w5)
        /\ data (buffers w7 (allocated w5)) = middle_result
        /\ source_layer (buffers w7 (allocated w5))
           = stage_layer_type (middle_base (middle_layer w5))
        /\ target_layer (buffers w7 (allocated w5)) = BOTTOM
        /\ validation_results (buffers w7 (allocated w5)) = [])
  /\ (forall ev key val w0,
        execution_log (log ev key val w0)
        = (execution_log w0
           ++ [mkLogEntry (isoformat (now_at (clock_reads w0))) ev
                 (PyDict [(PyStr key, PyStr val)])])%list
        /\ logger (log ev key val w0)
           = (logger w0
              ++ [mkLogRecord INFO
                    ("3-Layer Workflow: " ++ ev ++ " - "
                     ++ "{" ++ (repr_str key ++ ": " ++ repr_str val) ++ "}")])%list
        /\ clock_reads (log ev key val w0) = S (clock_reads w0)
        /\ buffers (log ev key val w0) = buffers w0
        /\ allocated (log ev key val w0) = allocated w0
        /\ top_layer (log ev key val w0) = top_layer w0
        /\ middle_layer (log ev key val w0) = middle_layer w0
        /\ bottom_layer (log ev key val w0) = bottom_layer w0).
Proof.
  assert (Hwire : forall source target consumer d w0,
            execution_log (wire source target consumer d w0) = execution_log w0).
  { intros source target consumer d w0.
    unfold wire, wired, set_input_buffer, create_output_buffer, datetime_now, new_buffer.
    destruct source, consumer; reflexivity. }
  split; [|split; [|split]].
  - rewrite execute_workflow_of_body, execute_workflow_body_steps. split.
    + intros H.
      destruct (top_process initial_input _) as [[top_result|e] w2] eqn:Htop;
        [|discriminate].
      destruct (middle_process top_result _) as [[middle_result|e] w5] eqn:Hmid;
        [|discriminate].
      destruct (bottom_process middle_result _) as [[final|e] w8] eqn:Hbot;
        [|discriminate].
      inversion H; subst.
      exists top_result, w2, middle_result, w5, w8. cbv zeta.
      rewrite Htop, Hmid, Hbot, !Hwire. repeat split.
    + intros (top_result & w2 & middle_result & w5 & w8 & Htop & Hmid & Hbot & Hw' & _).
      rewrite Htop, Hmid, Hbot, Hw'. reflexivity.
  - intros top_result w2.
    apply (@wired_spec TopStage MIDDLE MiddleStage top_result w2). discriminate.
  - intros middle_result w5.
    apply (@wired_spec MiddleStage BOTTOM BottomStage middle_result w5). discriminate.
  - intros ev key val w0. repeat split.
Qed.

End OrchestratorProperties.

(* ================================================================== *)
(** ** Worked instances                                                 *)
(* ================================================================== *)

Example str_of_dict :
  Py.str (PyDict [(PyStr "test", PyStr "data");
                  (PyStr "n", PyList [PyInt (-3); PyBool true; PyNone])])
  = Returned "{'test': 'data', 'n': [-3, True, None]}".
Proof. reflexivity. Qed.

Example repr_of_quoted_str :
  Py.repr (PyStr "it's") = Returned (String dquote ("it's" ++ String dquote EmptyString)).
Proof. reflexivity. Qed.

(** The buffer test of test_framework.py: a passing outcome of size 16. *)
Example validate_test_data :
  status (fst (validate Samples.now_at 0 Samples.world_test_data)) = PASSED
  /\ data_size (fst (validate Samples.now_at 0 Samples.world_test_data)) = 16%Z.
Proof. split; reflexivity. Qed.

(** The run of simple_test.py. *)
Example workflow_test_input :
  fst (Samples.workflow Samples.execute_core_logic (PyStr "test input")
         Samples.world_test_data)
  = Returned (PyStr "finalized: processed: orchestrated: test input").
Proof. reflexivity. Qed.

Example workflow_test_input_log :
  map event
    (execution_log
       (snd (Samples.workflow Samples.execute_core_logic (PyStr "test input")
               Samples.world_test_data)))
  = ["workflow_start"; "workflow_complete"].
Proof. reflexivity. Qed.

(** C7 fails as stated. On the passing buffer of test_framework.py the
    input check returns true and the message is not [validation passed];
    on a rejecting buffer it returns false and the message is not
    [validation failed]; and on a payload whose truth test raises, the
    input check returns true and the outcome is [FAILED]. *)
Lemma validate_result_contents_counterexample :
  (validate_input (expectations (buffers Samples.world_test_data 0))
     (data (buffers Samples.world_test_data 0)) = Returned true
   /\ message (fst (validate Samples.now_at 0 Samples.world_test_data))
      <> "validation passed")
  /\ (validate_input (expectations (buffers Samples.world_rejecting 0))
        (data (buffers Samples.world_rejecting 0)) = Returned false
      /\ message (fst (validate Samples.now_at 0 Samples.world_rejecting))
         <> "validation failed")
  /\ (validate_input (expectations (buffers Samples.world_ambiguous 0))
        (data (buffers Samples.world_ambiguous 0)) = Returned true
      /\ status (fst (validate Samples.now_at 0 Samples.world_ambiguous)) = FAILED
      /\ status (fst (validate Samples.now_at 0 Samples.world_ambiguous)) <> PASSED).
Proof.
  repeat split; try reflexivity; vm_compute; discriminate.
Qed.

Lemma validate_result_contents_witness :
  (status (fst (validate Samples.now_at 0 Samples.world_test_data)) = PASSED
   /\ message (fst (validate Samples.now_at 0 Samples.world_test_data))
      = "Buffer validation passed")
  /\ (status (fst (validate Samples.now_at 0 Samples.world_rejecting)) = FAILED
      /\ message (fst (validate Samples.now_at 0 Samples.world_rejecting))
         = "Buffer validation failed").
Proof.
  split.
  - exact (proj1 (@validate_result_contents Samples.now_at 0 Samples.world_test_data
                    16%Z eq_refl) eq_refl).
  - exact (proj2 (@validate_result_contents Samples.now_at 0 Samples.world_rejecting
                    16%Z eq_refl) eq_refl).
Defined.




(** The auditor of fact_checking.py and the A2A adapter that inherits
    its [process], with the [orchestrate] of simple_test.py standing
    for the adapter's own. *)
Example adapter_process_runs_adapter_orchestrate :
  let orchestrate_of (c : TopClass) :=
    match c with
    | A2AAuditorAdapter_class => Samples.formatted "a2a: "
    | _ => Samples.orchestrate
    end in
  option_map (fun process => fst (process (PyStr "q") Samples.world_test_data))
    (call_process orchestrate_of A2AAuditorAdapter_class)
  = Some (Returned (PyStr "a2a: q"))
  /\ option_map (fun process => fst (process (PyStr "q") Samples.world_test_data))
       (call_process orchestrate_of FactCheckAuditor_class)
     = Some (Returned (PyStr "orchestrated: q"))
  /\ call_process orchestrate_of TopLayer_class = None.
Proof. vm_compute. repeat split. Qed.

Lemma blocking_then_advisory_witness :
  MiddleLayer_process Samples.now_at Samples.execute_core_logic Samples.failing_gate
    Samples.test_data Samples.world_attached_rejecting
  = (Raised (mkExc "ValueError" "Input validation failed: Buffer validation failed"),
     snd (validate Samples.now_at 0 Samples.world_attached_rejecting))
  /\ fst (MiddleLayer_process Samples.now_at Samples.execute_core_logic Samples.failing_gate
            (PyStr "q") Samples.world_attached_permissive)
     = Returned (PyStr "processed: q")
  /\ In (mkLogRecord WARNING_LEVEL "Quality gate 'sufficient_evidence' failed")
        (logger (snd (MiddleLayer_process Samples.now_at Samples.execute_core_logic
                        Samples.failing_gate (PyStr "q")
                        Samples.world_attached_permissive)))
  /\ BottomLayer_process Samples.now_at Samples.finalize_output
       BottomLayer_apply_finalization_rule Samples.failing_gate
       Samples.test_data Samples.world_attached_rejecting
     = (Raised (mkExc "ValueError" "Input validation failed: Buffer validation failed"),
        snd (validate Samples.now_at 0 Samples.world_attached_rejecting))
  /\ In (mkLogRecord WARNING_LEVEL "Output validator 'quality_score_valid' failed")
        (logger (snd (BottomLayer_process Samples.now_at Samples.finalize_output
                        BottomLayer_apply_finalization_rule Samples.failing_gate
                        (PyStr "q") Samples.world_attached_permissive))).
Proof.
  pose proof (blocking_then_advisory Samples.now_at
                Samples.execute_core_logic Samples.finalize_output
                Samples.failing_gate Samples.failing_gate
                BottomLayer_apply_finalization_rule
                Samples.test_data Samples.world_attached_rejecting 0) as [Hm Hb].
  pose proof (blocking_then_advisory Samples.now_at
                Samples.execute_core_logic Samples.finalize_output
                Samples.failing_gate Samples.failing_gate
                BottomLayer_apply_finalization_rule
                (PyStr "q") Samples.world_attached_permissive 0) as [Hm' Hb'].
  assert (Hpassed :
            status (fst (validate Samples.now_at 0 Samples.world_attached_permissive))
            <> FAILED) by (vm_compute; discriminate).
  destruct (proj2 (Hm' eq_refl) Hpassed _ _ eq_refl) as [Hmid Hwarn].
  destruct (proj2 (Hb' eq_refl) Hpassed _ _ eq_refl) as [Hbot Hwarn'].
  split; [exact (proj1 (Hm eq_refl) eq_refl)|].
  split; [rewrite Hmid; reflexivity|].
  split; [apply (Hwarn "sufficient_evidence"); [left|]; reflexivity|].
  split; [exact (proj1 (Hb eq_refl) eq_refl)|].
  apply (Hwarn' "quality_score_valid"); [left|]; reflexivity.
Defined.

Lemma execute_workflow_sequence_witness :
  Samples.workflow Samples.execute_core_logic (PyStr "test input") Samples.world_test_data
  = (Returned (PyStr "finalized: processed: orchestrated: test input"),
     snd (Samples.workflow Samples.execute_core_logic (PyStr "test input")
            Samples.world_test_data))
  /\ map event
       (execution_log
          (snd (Samples.workflow Samples.execute_core_logic (PyStr "test input")
                  Samples.world_test_data)))
     = ["workflow_start"; "workflow_complete"]
  /\ execution_log
       (logged Samples.now_at Samples.isoformat "workflow_start" "input_type" "str"
          Samples.world_test_data)
     = [mkLogEntry (Samples.isoformat 0%Z) "workflow_start"
          (PyDict [(PyStr "input_type", PyStr "str")])].
Proof.
  pose proof (execute_workflow_sequence Samples.now_at Samples.isoformat
                (TestTopLayer_process Samples.orchestrate)
                (MiddleLayer_process Samples.now_at Samples.execute_core_logic
                   MiddleLayer_check_quality_gate)
                (BottomLayer_process Samples.now_at Samples.finalize_output
                   BottomLayer_apply_finalization_rule BottomLayer_validate_output)
                (PyStr "test input")
                (PyStr "finalized: processed: orchestrated: test input")
                Samples.world_test_data) as Hseq.
  split; [|split].
  - unfold Samples.workflow. apply (proj1 (Hseq _)).
    exists (PyStr "orchestrated: test input"). eexists.
    exists (PyStr "processed: orchestrated: test input"). eexists. eexists.
    cbv zeta.
    split; [|split; [|split; [|split; [|split; [|split; [|split]]]]]];
      vm_compute; reflexivity.
  - vm_compute. reflexivity.
  - rewrite (proj1 (proj2 (proj2 (proj2 (Hseq Samples.world_test_data)))
                      "workflow_start" "input_type" "str" Samples.world_test_data)).
    reflexivity.
Defined.

(** After that run both buffers are attached, hold the value handed to
    the next stage and have been validated once. *)
Example workflow_test_input_buffers :
  let w' := snd (Samples.workflow Samples.execute_core_logic (PyStr "test input")
                   Samples.world_test_data) in
  input_buffer (middle_base (middle_layer w')) = Some 1
  /\ input_buffer (bottom_base (bottom_layer w')) = Some 2
  /\ data (buffers w' 1) = PyStr "orchestrated: test input"
  /\ data (buffers w' 2) = PyStr "processed: orchestrated: test input"
  /\ map status (validation_results (buffers w' 1)) = [PASSED]
  /\ map status (validation_results (buffers w' 2)) = [PASSED].
Proof. vm_compute. repeat split. Qed.

(** An integer payload of 4301 digits cannot be rendered: its outcome
    is [FAILED] with size 0; one of 4299 digits has size 4299. *)
Example huge_int_payload :
  let w := Samples.world_with
             (Samples.buffer_with Samples.permissive (PyInt (10 ^ 4300))) None in
  status (fst (validate Samples.now_at 0 w)) = FAILED
  /\ data_size (fst (validate Samples.now_at 0 w)) = 0%Z
  /\ data_size (fst (validate Samples.now_at 0
                       (Samples.world_with
                          (Samples.buffer_with Samples.permissive
                             (PyInt (10 ^ 4299 - 1))) None)))
     = 4299%Z.
Proof. vm_compute. repeat split. Qed.

(** A top stage that happens to hold a rejecting inbound buffer still
    returns what [orchestrate] returns and leaves the buffer's history
    empty, where the middle stage raises. *)
Example top_ignores_inbound_buffer :
  let w := set_input_buffer TopStage 0 Samples.world_attached_rejecting in
  fst (TestTopLayer_process Samples.orchestrate (PyStr "q") w)
  = Returned (PyStr "orchestrated: q")
  /\ validation_results
       (buffers (snd (TestTopLayer_process Samples.orchestrate (PyStr "q") w)) 0) = []
  /\ fst (MiddleLayer_process Samples.now_at Samples.execute_core_logic
            MiddleLayer_check_quality_gate (PyStr "q") w)
     = Raised (mkExc "ValueError" "Input validation failed: Buffer validation failed").
Proof. vm_compute. repeat split. Qed.

(* ================================================================== *)
(** ** Further properties of the framework                              *)
(* ================================================================== *)

Lemma append_validation_result_frame self v w :
  let w' := append_validation_result self v w in
  (forall other, other <> self -> buffers w' other = buffers w other)
  /\ allocated w' = allocated w /\ clock_reads w' = clock_reads w
  /\ top_layer w' = top_layer w /\ middle_layer w' = middle_layer w
  /\ bottom_layer w' = bottom_layer w
  /\ execution_log w' = execution_log w /\ logger w' = logger w.
Proof.
  unfold append_validation_result, store_buffer. simpl.
  split; [|tauto].
  intros other Hne. destruct (Nat.eqb_spec other self); congruence.
Qed.

Section BufferProperties.

Variable now_at : nat -> datetime.
Variable isoformat : datetime -> string.




End BufferProperties.

Section StageProcessProperties.

Variable now_at : nat -> datetime.
Variable isoformat : datetime -> string.

Lemma MiddleLayer_process_cases execute_core_logic check input w :
  MiddleLayer_process now_at execute_core_logic check input w
  = match input_buffer (middle_base (middle_layer w)) with
    | None => middle_outcome execute_core_logic check input w
    | Some r =>
        if ValidationStatus_eqb (status (fst (validate now_at r w))) FAILED
        then (Raised (validation_error (fst (validate now_at r w))),
              snd (validate now_at r w))
        else middle_outcome execute_core_logic check input (snd (validate now_at r w))
    end.
Proof.
  unfold MiddleLayer_process, middle_outcome, bind, lift, ret.
  destruct (input_buffer (middle_base (middle_layer w))) as [r|].
  - destruct (validate now_at r w) as [v w1]. cbn [fst snd].
    destruct (ValidationStatus_eqb (status v) FAILED); [reflexivity|].
    destruct (execute_core_logic input w1) as [[result|e] w2]; [|reflexivity].
    now rewrite apply_quality_gates_warnings.
  - destruct (execute_core_logic input w) as [[result|e] w2]; [|reflexivity].
    now rewrite apply_quality_gates_warnings.
Qed.

Lemma BottomLayer_process_cases finalize_output rule check input w :
  BottomLayer_process now_at finalize_output rule check input w
  = match input_buffer (bottom_base (bottom_layer w)) with
    | None => bottom_outcome finalize_output rule check input w
    | Some r =>
        if ValidationStatus_eqb (status (fst (validate now_at r w))) FAILED
        then (Raised (validation_error (fst (validate now_at r w))),
              snd (validate now_at r w))
        else bottom_outcome finalize_output rule check input (snd (validate now_at r w))
    end.
Proof.
  unfold BottomLayer_process, bottom_outcome, bind, lift, ret.
  destruct (input_buffer (bottom_base (bottom_layer w))) as [r|].
  - destruct (validate now_at r w) as [v w1]. cbn [fst snd].
    destruct (ValidationStatus_eqb (status v) FAILED); [reflexivity|].
    destruct (finalize_output _ w1) as [[result|e] w2]; [|reflexivity].
    now rewrite apply_output_validators_warnings.
  - destruct (finalize_output _ w) as [[result|e] w2]; [|reflexivity].
    now rewrite apply_output_validators_warnings.
Qed.

(** The buffer of a wiring, as an object of the world it leaves. *)
Lemma wired_buffer source target consumer d w :
  buffers (wired now_at isoformat source target consumer d w) (allocated w)
  = mkDirectionBuffer (stage_layer_type (layer_base source w)) target
      (new_LayerExpectation target (output_schema (stage_expectations (layer_base source w)))
         (PyDict []) [] (PyDict []) (PyDict []))
      d
      (PyDict [(PyStr "created_at", PyStr (isoformat (now_at (clock_reads w))));
               (PyStr "source_layer_type",
                PyStr (LayerType_value (stage_layer_type (layer_base source w))))])
      [].
Proof.
  unfold wired, set_input_buffer, create_output_buffer, datetime_now, new_buffer.
  destruct source, consumer; simpl; now rewrite Nat.eqb_refl.
Qed.

Lemma wired_input_buffer source target consumer d w :
  input_buffer (layer_base consumer (wired now_at isoformat source target consumer d w))
  = Some (allocated w).
Proof.
  unfold wired, set_input_buffer, create_output_buffer, datetime_now, new_buffer.
  destruct source, consumer; reflexivity.
Qed.



Lemma warnings_for_accepting kind names result :
  warnings_for kind (fun _ _ => true) names result = [].
Proof. unfold warnings_for. induction names; simpl; auto. Qed.

Lemma apply_finalization_rules_identity rules d :
  apply_finalization_rules BottomLayer_apply_finalization_rule rules d = d.
Proof. revert d. induction rules; intros d; simpl; auto. Qed.

(** X6. With the checks the base classes define, a stage is its hook.
    Whatever gates, finalization rules and output validators were
    registered, [MiddleLayer.process] with the class's own
    [_check_quality_gate] ends in exactly the outcome and world of
    [execute_core_logic] (no warning is ever logged), and
    [BottomLayer.process] with the class's own [_apply_finalization_rule]
    and [_validate_output] hands [finalize_output] the input unchanged
    and ends in its outcome and world; this from the world the inbound
    validation left, when it did not fail, or from the initial world when
    no buffer is attached. *)
Theorem base_checks_are_transparent
    (execute_core_logic finalize_output : Value -> M Value)
    (input : Value) (w : World) :
  let middle :=
    MiddleLayer_process now_at execute_core_logic MiddleLayer_check_quality_gate in
  let bottom :=
    BottomLayer_process now_at finalize_output
      BottomLayer_apply_finalization_rule BottomLayer_validate_output in
  (input_buffer (middle_base (middle_layer w)) = None ->
     middle input w = execute_core_logic input w)
  /\ (forall r, input_buffer (middle_base (middle_layer w)) = Some r ->
        status (fst (validate now_at r w)) <> FAILED ->
        middle input w = execute_core_logic input (snd (validate now_at r w)))
  /\ (input_buffer (bottom_base (bottom_layer w)) = None ->
        bottom input w = finalize_output input w)
  /\ (forall r, input_buffer (bottom_base (bottom_layer w)) = Some r ->
        status (fst (validate now_at r w)) <> FAILED ->
        bottom input w = finalize_output input (snd (validate now_at r w))).
Proof.
  intros middle bottom. subst middle bottom.
  assert (Hmid : forall w1,
            middle_outcome execute_core_logic MiddleLayer_check_quality_gate input w1
            = execute_core_logic input w1).
  { intros w1. unfold middle_outcome, MiddleLayer_check_quality_gate.
    destruct (execute_core_logic input w1) as [[result|e] w2]; [|reflexivity].
    now rewrite warnings_for_accepting, app_nil_r, set_logger_same. }
  assert (Hbot : forall w1,
            bottom_outcome finalize_output BottomLayer_apply_finalization_rule
              BottomLayer_validate_output input w1
            = finalize_output input w1).
  { intros w1. unfold bottom_outcome, BottomLayer_validate_output.
    rewrite apply_finalization_rules_identity.
    destruct (finalize_output input w1) as [[result|e] w2]; [|reflexivity].
    now rewrite warnings_for_accepting, app_nil_r, set_logger_same. }
  rewrite MiddleLayer_process_cases, BottomLayer_process_cases.
  split; [|split; [|split]].
  - intros Hnone. now rewrite Hnone, Hmid.
  - intros r Hsome Hst. now rewrite Hsome, (ValidationStatus_eqb_false Hst), Hmid.
  - intros Hnone. now rewrite Hnone, Hbot.
  - intros r Hsome Hst. now rewrite Hsome, (ValidationStatus_eqb_false Hst), Hbot.
Qed.

(** X7. Registration order is evaluation order.  A quality gate added
    with [add_quality_gate] is checked after every gate registered
    before it, an output validator added with [add_output_validator]
    after every earlier validator, and a rule added with
    [add_finalization_rule] is applied to what the earlier rules made;
    nothing is deduplicated, reordered or dropped.  Each of the three
    adders appends the name to its own list and changes nothing else:
    the stage's other attributes, the top stage and the other stage,
    the buffers, the execution log, the logger and the clock are as
    they were. *)
Theorem added_checks_run_last
    (check : string -> Value -> bool) (rule : string -> Value -> Value)
    (name : string) (d : Value) (w w0 : World) :
  apply_quality_gates check (quality_gates (middle_layer (add_quality_gate name w))) d w0
  = (let w1 := apply_quality_gates check (quality_gates (middle_layer w)) d w0 in
     if check name d then w1
     else logger_warning ("Quality gate '" ++ name ++ "' failed") w1)
  /\ apply_output_validators check
       (output_validators (bottom_layer (add_output_validator name w))) d w0
     = (let w1 := apply_output_validators check (output_validators (bottom_layer w)) d w0 in
        if check name d then w1
        else logger_warning ("Output validator '" ++ name ++ "' failed") w1)
  /\ apply_finalization_rules rule
       (finalization_rules (bottom_layer (add_finalization_rule name w))) d
     = rule name (apply_finalization_rules rule (finalization_rules (bottom_layer w)) d)
  /\ (let w' := add_quality_gate name w in
      quality_gates (middle_layer w') = (quality_gates (middle_layer w) ++ [name])%list
      /\ middle_base (middle_layer w') = middle_base (middle_layer w)
      /\ processing_config (middle_layer w') = processing_config (middle_layer w)
      /\ top_layer w' = top_layer w /\ bottom_layer w' = bottom_layer w
      /\ buffers w' = buffers w /\ allocated w' = allocated w
      /\ execution_log w' = execution_log w /\ logger w' = logger w
      /\ clock_reads w' = clock_reads w)
  /\ (let w' := add_output_validator name w in
      output_validators (bottom_layer w')
      = (output_validators (bottom_layer w) ++ [name])%list
      /\ finalization_rules (bottom_layer w') = finalization_rules (bottom_layer w)
      /\ bottom_base (bottom_layer w') = bottom_base (bottom_layer w)
      /\ top_layer w' = top_layer w /\ middle_layer w' = middle_layer w
      /\ buffers w' = buffers w /\ allocated w' = allocated w
      /\ execution_log w' = execution_log w /\ logger w' = logger w
      /\ clock_reads w' = clock_reads w)
  /\ (let w' := add_finalization_rule name w in
      finalization_rules (bottom_layer w')
      = (finalization_rules (bottom_layer w) ++ [name])%list
      /\ output_validators (bottom_layer w') = output_validators (bottom_layer w)
      /\ bottom_base (bottom_layer w') = bottom_base (bottom_layer w)
      /\ top_layer w' = top_layer w /\ middle_layer w' = middle_layer w
      /\ buffers w' = buffers w /\ allocated w' = allocated w
      /\ execution_log w' = execution_log w /\ logger w' = logger w
      /\ clock_reads w' = clock_reads w).
Proof.
  assert (Hg : forall gates w1,
            apply_quality_gates check (gates ++ [name]) d w1
            = (let w2 := apply_quality_gates check gates d w1 in
               if check name d then w2
               else logger_warning ("Quality gate '" ++ name ++ "' failed") w2)).
  { induction gates as [|g rest IH]; intros w1; simpl.
    - now destruct (check name d).
    - now rewrite IH. }
  assert (Hv : forall validators w1,
            apply_output_validators check (validators ++ [name]) d w1
            = (let w2 := apply_output_validators check validators d w1 in
               if check name d then w2
               else logger_warning ("Output validator '" ++ name ++ "' failed") w2)).
  { induction validators as [|g rest IH]; intros w1; simpl.
    - now destruct (check name d).
    - now rewrite IH. }
  assert (Hr : forall rules x,
            apply_finalization_rules rule (rules ++ [name]) x
            = rule name (apply_finalization_rules rule rules x)).
  { induction rules as [|g rest IH]; intros x; simpl; auto. }
  split; [apply Hg|]. split; [apply Hv|]. split; [apply Hr|].
  repeat split.
Qed.

End StageProcessProperties.

Section RunProperties.

Variable now_at : nat -> datetime.
Variable isoformat : datetime -> string.

(** The world [validate] leaves: the clock advanced and the outcome
    appended. *)
Lemma validate_world self w :
  exists n,
    snd (validate now_at self w)
    = append_validation_result self (fst (validate now_at self w)) (set_clock_reads n w).
Proof.
  destruct (validate_input (expectations (buffers w self)) (data (buffers w self)))
    as [iv|e] eqn:Hin;
    [destruct (payload_size (data (buffers w self))) as [size|e] eqn:Hsize|].
  - rewrite (validate_normal now_at self w Hin Hsize). eexists. reflexivity.
  - rewrite (validate_size_raises now_at self w Hin Hsize). eexists. reflexivity.
  - rewrite (validate_check_raises now_at self w Hin). eexists. reflexivity.
Qed.

Lemma validate_keeps self w :
  let w' := snd (validate now_at self w) in
  (forall other, other <> self -> buffers w' other = buffers w other)
  /\ validation_results (buffers w' self)
     = (validation_results (buffers w self) ++ [fst (validate now_at self w)])%list
  /\ allocated w' = allocated w
  /\ top_layer w' = top_layer w /\ middle_layer w' = middle_layer w
  /\ bottom_layer w' = bottom_layer w /\ execution_log w' = execution_log w.
Proof.
  intros w'. subst w'. destruct (validate_world self w) as [n Hw]. rewrite Hw.
  destruct (append_validation_result_frame self (fst (validate now_at self w))
              (set_clock_reads n w)) as (Hb & Ha & _ & Ht & Hm & Hf & He & _).
  rewrite Ha, Ht, Hm, Hf, He, append_validation_result_history. simpl.
  repeat split; auto.
Qed.

Lemma validate_status_cases self w :
  status (fst (validate now_at self w)) = PASSED
  \/ status (fst (validate now_at self w)) = FAILED.
Proof.
  destruct (validate_input (expectations (buffers w self)) (data (buffers w self)))
    as [iv|e] eqn:Hin;
    [destruct (payload_size (data (buffers w self))) as [size|e] eqn:Hsize|].
  - rewrite (validate_normal now_at self w Hin Hsize). simpl. destruct iv; auto.
  - rewrite (validate_size_raises now_at self w Hin Hsize). simpl. auto.
  - rewrite (validate_check_raises now_at self w Hin). simpl. auto.
Qed.

(** The stage methods keep the execution log when their hooks do. *)
Lemma MiddleLayer_process_keeps_log execute_core_logic check :
  keeps_log execute_core_logic ->
  keeps_log (MiddleLayer_process now_at execute_core_logic check).
Proof.
  intros Hk input w. rewrite MiddleLayer_process_cases. unfold middle_outcome.
  assert (Hout : forall w1,
            execution_log
              (snd (match execute_core_logic input w1 with
                    | (Returned result, w2) =>
                        (Returned result,
                         set_logger
                           (logger w2 ++ warnings_for "Quality gate" check
                                           (quality_gates (middle_layer w2)) result) w2)
                    | (Raised e, w2) => (Raised e, w2)
                    end))
            = execution_log w1).
  { intros w1. specialize (Hk input w1).
    destruct (execute_core_logic input w1) as [[result|e] w2]; exact Hk. }
  destruct (input_buffer (middle_base (middle_layer w))) as [r|]; [|apply Hout].
  destruct (validate_keeps r w) as (_ & _ & _ & _ & _ & _ & He).
  destruct (ValidationStatus_eqb _ FAILED); [exact He|].
  now rewrite Hout.
Qed.

Lemma BottomLayer_process_keeps_log finalize_output rule check :
  keeps_log finalize_output ->
  keeps_log (BottomLayer_process now_at finalize_output rule check).
Proof.
  intros Hk input w. rewrite BottomLayer_process_cases. unfold bottom_outcome.
  assert (Hout : forall w1,
            execution_log
              (snd (match finalize_output
                            (apply_finalization_rules rule
                               (finalization_rules (bottom_layer w1)) input) w1 with
                    | (Returned result, w2) =>
                        (Returned result,
                         set_logger
                           (logger w2 ++ warnings_for "Output validator" check
                                           (output_validators (bottom_layer w2)) result) w2)
                    | (Raised e, w2) => (Raised e, w2)
                    end))
            = execution_log w1).
  { intros w1.
    specialize (Hk (apply_finalization_rules rule
                      (finalization_rules (bottom_layer w1)) input) w1).
    destruct (finalize_output _ w1) as [[result|e] w2]; exact Hk. }
  destruct (input_buffer (bottom_base (bottom_layer w))) as [r|]; [|apply Hout].
  destruct (validate_keeps r w) as (_ & _ & _ & _ & _ & _ & He).
  destruct (ValidationStatus_eqb _ FAILED); [exact He|].
  now rewrite Hout.
Qed.

Lemma wired_execution_log source target consumer d w :
  execution_log (wired now_at isoformat source target consumer d w) = execution_log w.
Proof.
  unfold wired, set_input_buffer, create_output_buffer, datetime_now, new_buffer.
  destruct source, consumer; reflexivity.
Qed.

(** What a wiring leaves of the world. *)
Lemma wired_keeps source target consumer d w :
  let w4 := wired now_at isoformat source target consumer d w in
  allocated w4 = S (allocated w)
  /\ validation_results (buffers w4 (allocated w)) = []
  /\ (forall other, other <> allocated w -> buffers w4 other = buffers w other)
  /\ input_buffer (layer_base consumer w4) = Some (allocated w)
  /\ (forall s, s <> consumer ->
        input_buffer (layer_base s w4) = input_buffer (layer_base s w)).
Proof.
  intros w4. subst w4.
  split; [destruct source, consumer; reflexivity|].
  split; [now rewrite wired_buffer|].
  split.
  - intros other Hne.
    unfold wired, set_input_buffer, create_output_buffer, datetime_now, new_buffer.
    destruct source, consumer; simpl; destruct (Nat.eqb_spec other (allocated w));
      congruence.
  - split; [apply wired_input_buffer|].
    intros s Hne. destruct source, consumer, s; try congruence; reflexivity.
Qed.

(** A middle stage with an attached buffer that returns: the validation
    passed, and with a hook that keeps the objects the world differs
    from the one [validate] left in clock and logger only. *)
Lemma MiddleLayer_process_returned execute_core_logic check input w r result w' :
  keeps_objects execute_core_logic ->
  input_buffer (middle_base (middle_layer w)) = Some r ->
  MiddleLayer_process now_at execute_core_logic check input w = (Returned result, w') ->
  status (fst (validate now_at r w)) = PASSED
  /\ buffers w' = buffers (snd (validate now_at r w))
  /\ allocated w' = allocated w
  /\ middle_layer w' = middle_layer w /\ bottom_layer w' = bottom_layer w.
Proof.
  intros Hk Hbuf. rewrite MiddleLayer_process_cases, Hbuf.
  destruct (validate_keeps r w) as (_ & _ & Ha & _ & Hm & Hf & _).
  destruct (ValidationStatus_eqb _ FAILED) eqn:Hst; [discriminate|].
  unfold middle_outcome.
  pose proof (Hk input (snd (validate now_at r w))) as Hobj.
  destruct (execute_core_logic input _) as [[result1|e] w2]; [|discriminate].
  simpl in Hobj. destruct Hobj as (Hb2 & Ha2 & _ & Hm2 & Hf2 & _).
  intros H. inversion H; subst. simpl.
  split.
  - destruct (validate_status_cases r w) as [Hp|Hfail]; [exact Hp|].
    rewrite Hfail in Hst. discriminate.
  - repeat split; congruence.
Qed.

Lemma BottomLayer_process_returned finalize_output rule check input w r result w' :
  keeps_objects finalize_output ->
  input_buffer (bottom_base (bottom_layer w)) = Some r ->
  BottomLayer_process now_at finalize_output rule check input w = (Returned result, w') ->
  status (fst (validate now_at r w)) = PASSED
  /\ buffers w' = buffers (snd (validate now_at r w))
  /\ allocated w' = allocated w
  /\ middle_layer w' = middle_layer w /\ bottom_layer w' = bottom_layer w.
Proof.
  intros Hk Hbuf. rewrite BottomLayer_process_cases, Hbuf.
  destruct (validate_keeps r w) as (_ & _ & Ha & _ & Hm & Hf & _).
  destruct (ValidationStatus_eqb _ FAILED) eqn:Hst; [discriminate|].
  unfold bottom_outcome.
  pose proof (Hk (apply_finalization_rules rule
                    (finalization_rules (bottom_layer (snd (validate now_at r w)))) input)
                (snd (validate now_at r w))) as Hobj.
  destruct (finalize_output _ _) as [[result1|e] w2]; [|discriminate].
  simpl in Hobj. destruct Hobj as (Hb2 & Ha2 & _ & Hm2 & Hf2 & _).
  intros H. inversion H; subst. simpl.
  split.
  - destruct (validate_status_cases r w) as [Hp|Hfail]; [exact Hp|].
    rewrite Hfail in Hst. discriminate.
  - repeat split; congruence.
Qed.

(** X9. The summary after a run that returned.  With the framework's
    [MiddleLayer.process] and [BottomLayer.process] and hooks that keep
    the framework's objects, [get_execution_summary] after a returning
    [execute_workflow] reports exactly two buffer validations, the
    outcome of the top-to-middle buffer and then the outcome of the
    middle-to-bottom buffer, both [PASSED]: the buffers of the run are
    new objects, so no outcome of an earlier run on the same
    orchestrator is reported. *)
Theorem summary_after_run
    (top_process execute_core_logic finalize_output : Value -> M Value)
    (_check_quality_gate _validate_output : string -> Value -> bool)
    (_apply_finalization_rule : string -> Value -> Value)
    (initial_input final_result : Value) (w w' : World) :
  keeps_objects execute_core_logic ->
  keeps_objects finalize_output ->
  execute_workflow now_at isoformat top_process
    (MiddleLayer_process now_at execute_core_logic _check_quality_gate)
    (BottomLayer_process now_at finalize_output _apply_finalization_rule _validate_output)
    initial_input w
  = (Returned final_result, w') ->
  exists v1 v2,
    buffer_validations (get_execution_summary w')
    = [mkCollectedValidation "top_to_middle" v1;
       mkCollectedValidation "middle_to_bottom" v2]
    /\ status v1 = PASSED /\ layer_to v1 = MIDDLE
    /\ status v2 = PASSED /\ layer_to v2 = BOTTOM.
Proof.
  intros Hke Hkf Hrun.
  rewrite execute_workflow_of_body, execute_workflow_body_steps in Hrun.
  destruct (top_process initial_input _) as [[top_result|e] w2]; [|discriminate].
  set (w4 := wired now_at isoformat TopStage MIDDLE MiddleStage top_result w2) in *.
  destruct (MiddleLayer_process now_at execute_core_logic _check_quality_gate
              top_result w4) as [[middle_result|e] w5] eqn:Hmid; [|discriminate].
  set (w7 := wired now_at isoformat MiddleStage BOTTOM BottomStage middle_result w5) in *.
  destruct (BottomLayer_process now_at finalize_output _apply_finalization_rule
              _validate_output middle_result w7) as [[final|e] w8] eqn:Hbot;
    [|discriminate].
  inversion Hrun; subst final w'. clear Hrun.
  (* the top-to-middle wiring and the middle stage *)
  destruct (wired_keeps TopStage MIDDLE MiddleStage top_result w2)
    as (Ha4 & Hh4 & _ & _ & _).
  fold w4 in Ha4, Hh4.
  assert (Hi4 : input_buffer (middle_base (middle_layer w4)) = Some (allocated w2))
    by apply (wired_input_buffer now_at isoformat TopStage MIDDLE MiddleStage top_result w2).
  destruct (@MiddleLayer_process_returned execute_core_logic _check_quality_gate
              top_result w4 (allocated w2) middle_result w5 Hke Hi4 Hmid)
    as (Hst1 & Hb5 & Ha5 & Hm5 & _).
  destruct (validate_keeps (allocated w2) w4) as (_ & Hh1 & _).
  rewrite Hh4 in Hh1. simpl in Hh1.
  (* the middle-to-bottom wiring and the bottom stage *)
  destruct (wired_keeps MiddleStage BOTTOM BottomStage middle_result w5)
    as (Ha7 & Hh7 & Ho7 & _ & Hs7).
  fold w7 in Ha7, Hh7, Ho7, Hs7.
  assert (Hi7 : input_buffer (bottom_base (bottom_layer w7)) = Some (allocated w5))
    by apply (wired_input_buffer now_at isoformat MiddleStage BOTTOM BottomStage
                middle_result w5).
  assert (Him7 : input_buffer (middle_base (middle_layer w7))
                 = input_buffer (middle_base (middle_layer w5)))
    by (apply (Hs7 MiddleStage); discriminate).
  destruct (@BottomLayer_process_returned finalize_output _apply_finalization_rule
              _validate_output middle_result w7 (allocated w5) final_result w8
              Hkf Hi7 Hbot) as (Hst2 & Hb8 & _ & Hm8 & Hf8).
  destruct (validate_keeps (allocated w5) w7) as (Ho8 & Hh2 & _).
  rewrite Hh7 in Hh2. simpl in Hh2.
  assert (Hne : allocated w2 <> allocated w5) by (rewrite Ha5, Ha4; lia).
  exists (fst (validate now_at (allocated w2) w4)),
         (fst (validate now_at (allocated w5) w7)).
  split.
  - unfold get_execution_summary, _collect_buffer_validations, logged. simpl.
    rewrite Hm8, Hf8, Him7, Hi7, Hm5, Hi4, Hb8, Hh2.
    rewrite (Ho8 _ Hne), (Ho7 _ Hne), Hb5, Hh1. reflexivity.
  - split; [exact Hst1|]. split.
    + pose proof (wired_buffer now_at isoformat TopStage MIDDLE MiddleStage top_result w2)
        as Hbuf.
      fold w4 in Hbuf.
      destruct (validate_input (expectations (buffers w4 (allocated w2)))
                  (data (buffers w4 (allocated w2)))) as [iv|e] eqn:Hin;
        [destruct (payload_size (data (buffers w4 (allocated w2)))) as [size|e] eqn:Hsz|].
      * rewrite (validate_normal now_at _ w4 Hin Hsz). cbn [fst layer_to]. now rewrite Hbuf.
      * rewrite (validate_size_raises now_at _ w4 Hin Hsz). cbn [fst layer_to]. now rewrite Hbuf.
      * rewrite (validate_check_raises now_at _ w4 Hin). cbn [fst layer_to]. now rewrite Hbuf.
    + split; [exact Hst2|].
      pose proof (wired_buffer now_at isoformat MiddleStage BOTTOM BottomStage
                    middle_result w5) as Hbuf.
      fold w7 in Hbuf.
      destruct (validate_input (expectations (buffers w7 (allocated w5)))
                  (data (buffers w7 (allocated w5)))) as [iv|e] eqn:Hin;
        [destruct (payload_size (data (buffers w7 (allocated w5)))) as [size|e] eqn:Hsz|].
      * rewrite (validate_normal now_at _ w7 Hin Hsz). cbn [fst layer_to]. now rewrite Hbuf.
      * rewrite (validate_size_raises now_at _ w7 Hin Hsz). cbn [fst layer_to]. now rewrite Hbuf.
      * rewrite (validate_check_raises now_at _ w7 Hin). cbn [fst layer_to]. now rewrite Hbuf.
Qed.

End RunProperties.

Section SummaryProperties.

Variable now_at : nat -> datetime.


End SummaryProperties.

(* ================================================================== *)
(** ** Properties of the reviser and the claim extraction               *)
(* ================================================================== *)

Module FactCheckingProperties.

Import FactChecking.

Lemma change_step (changes : list string) (v : ClaimVerification) :
  (if (verdict v =? "inaccurate")%string
   then (changes ++ [("Correct inaccurate claim: " ++ text (claim v))%string])%list
   else if (verdict v =? "disputed")%string
   then (changes ++ [("Add nuance to disputed claim: " ++ text (claim v))%string])%list
   else if (verdict v =? "unsupported")%string
   then (changes ++ [("Soften unsupported claim: " ++ text (claim v))%string])%list
   else changes)
  = (changes ++ (if flagged v then [change_for v] else []))%list.
Proof.
  unfold flagged, change_for.
  destruct (verdict v =? "inaccurate")%string; [reflexivity|].
  destruct (verdict v =? "disputed")%string; [reflexivity|].
  destruct (verdict v =? "unsupported")%string; [reflexivity|].
  simpl. now rewrite app_nil_r.
Qed.

Lemma analyze_from (vs : list ClaimVerification) (changes : list string) :
  fold_left
    (fun (changes : list string) verification =>
       if (verdict verification =? "inaccurate")%string
       then (changes
             ++ [("Correct inaccurate claim: " ++ text (claim verification))%string])%list
       else if (verdict verification =? "disputed")%string
       then (changes
             ++ [("Add nuance to disputed claim: " ++ text (claim verification))%string])%list
       else if (verdict verification =? "unsupported")%string
       then (changes
             ++ [("Soften unsupported claim: " ++ text (claim verification))%string])%list
       else changes)
    vs changes
  = (changes ++ map change_for (filter flagged vs))%list.
Proof.
  revert changes. induction vs as [|v rest IH]; intros changes; simpl.
  - now rewrite app_nil_r.
  - rewrite change_step, IH, <- app_assoc.
    destruct (flagged v); reflexivity.
Qed.

Lemma analyze_as_filter (vs : list ClaimVerification) :
  _analyze_required_changes vs = map change_for (filter flagged vs).
Proof. unfold _analyze_required_changes. now rewrite analyze_from. Qed.

(** X11. The changes the reviser asks for: one per verification whose
    verdict is [inaccurate], [disputed] or [unsupported], in the order of
    the verifications, each naming the claim's text; every other verdict
    ([accurate], [not_applicable], anything unknown) asks for nothing.
    So there are never more changes than verifications, there are none
    exactly when no verification is flagged, and analysing a
    concatenation gives the concatenation of the analyses. *)
Theorem analyze_required_changes_spec (vs vs' : list ClaimVerification) :
  _analyze_required_changes vs = map change_for (filter flagged vs)
  /\ length (_analyze_required_changes vs) <= length vs
  /\ (_analyze_required_changes vs = [] <-> forall v, In v vs -> flagged v = false)
  /\ _analyze_required_changes (vs ++ vs')
     = (_analyze_required_changes vs ++ _analyze_required_changes vs')%list.
Proof.
  rewrite !analyze_as_filter. split; [reflexivity|]. split; [|split].
  - rewrite length_map. apply filter_length_le.
  - split.
    + intros Hnil v Hin. destruct (flagged v) eqn:Hf; [|reflexivity].
      assert (Hin' : In v (filter flagged vs)) by (apply filter_In; auto).
      apply (in_map change_for) in Hin'. rewrite Hnil in Hin'. contradiction.
    + intros Hall. induction vs as [|v rest IH]; [reflexivity|].
      simpl. rewrite (Hall v (or_introl eq_refl)). apply IH.
      intros v0 Hin. apply Hall. now right.
  - now rewrite filter_app, map_app.
Qed.

(** X12. [_apply_revisions] never alters the text: whatever the
    verifications and however many changes are asked for, it returns the
    original answer. *)
Theorem apply_revisions_returns_original
    (original : string) (vs : list ClaimVerification) (changes_needed : list string) :
  _apply_revisions original vs changes_needed = original.
Proof.
  unfold _apply_revisions. destruct changes_needed as [|c rest]; [reflexivity|].
  generalize (c :: rest). intros l. induction l as [|x l IH]; simpl; auto.
Qed.

Lemma apply_revisions_original (original : string) (vs : list ClaimVerification)
    (changes_needed : list string) :
  _apply_revisions original vs changes_needed = original.
Proof.
  unfold _apply_revisions. destruct changes_needed as [|c rest]; [reflexivity|].
  generalize (c :: rest). intros l. induction l as [|x l IH]; simpl; auto.
Qed.

(** X13. What the reviser's [finalize_output] returns for any analysis:
    the original and the revised answer are both the empty string, the
    changes are those of the flagged verifications in order, the
    reasoning is [No revisions needed.] followed by the assessment when
    nothing is flagged and starts with the number of changes otherwise,
    and the quality score is the confidence times 1.1 when that is below
    1.0 and exactly 1.0 otherwise, so it never exceeds 1.0. *)
Theorem finalize_output_spec (input_data : CriticAnalysis) :
  let out := finalize_output input_data in
  original_answer out = EmptyString
  /\ revised_answer out = EmptyString
  /\ changes_made out = map change_for (filter flagged (verifications input_data))
  /\ ((forall v, In v (verifications input_data) -> flagged v = false) ->
      changes_made out = []
      /\ revision_reasoning out
         = "No revisions needed. " ++ overall_assessment input_data)
  /\ ((exists v, In v (verifications input_data) /\ flagged v = true) ->
      changes_made out <> []
      /\ revision_reasoning out
         = ("Made " ++ repr_int (Z.of_nat (length (changes_made out)))
            ++ " revisions based on fact-checking analysis: "
            ++ overall_assessment input_data ++ ". ")
           ++ ("Changes: " ++ join ", " (changes_made out)))
  /\ ((confidence_score input_data * 1.1 <? 1.0)%float = true ->
      quality_score out = (confidence_score input_data * 1.1)%float
      /\ (quality_score out <? 1.0)%float = true)
  /\ ((confidence_score input_data * 1.1 <? 1.0)%float = false ->
      quality_score out = 1.0%float)
  /\ ((quality_score out <? 1.0)%float = true \/ quality_score out = 1.0%float).
Proof.
  intros out. subst out. unfold finalize_output. cbn [original_answer revised_answer
    changes_made revision_reasoning quality_score].
  rewrite apply_revisions_original, analyze_as_filter.
  split; [reflexivity|]. split; [reflexivity|]. split; [reflexivity|].
  split; [|split; [|split; [|split]]].
  - intros Hall.
    assert (Hnil : filter flagged (verifications input_data) = []).
    { induction (verifications input_data) as [|v rest IH]; [reflexivity|].
      simpl. rewrite (Hall v (or_introl eq_refl)). apply IH.
      intros v0 Hin. apply Hall. now right. }
    rewrite Hnil. split; reflexivity.
  - intros (v & Hin & Hf).
    assert (Hin' : In (change_for v)
                     (map change_for (filter flagged (verifications input_data))))
      by (apply in_map, filter_In; auto).
    destruct (map change_for (filter flagged (verifications input_data))) as [|c rest];
      [contradiction|].
    split; [discriminate|reflexivity].
  - unfold _calculate_quality_score. cbv zeta. intros Hlt. rewrite Hlt. auto.
  - unfold _calculate_quality_score. cbv zeta. intros Hlt. now rewrite Hlt.
  - unfold _calculate_quality_score. cbv zeta.
    destruct (confidence_score input_data * 1.1 <? 1.0)%float eqn:Hlt; auto.
Qed.

Lemma substring_prefix_length (n : nat) (s : string) :
  String.length (substring 0 n s) = Nat.min n (String.length s).
Proof.
  revert s. induction n as [|n IH]; intros s.
  - destruct s; reflexivity.
  - destruct s as [|c s]; simpl; [reflexivity|]. now rewrite IH.
Qed.

Lemma substring_prefix_all (n : nat) (s : string) :
  String.length s <= n -> substring 0 n s = s.
Proof.
  revert s. induction n as [|n IH]; intros s Hlen.
  - destruct s; simpl in *; [reflexivity|lia].
  - destruct s as [|c s]; simpl in *; [reflexivity|]. rewrite IH; [reflexivity|lia].
Qed.

Lemma substring_prefix_of (n : nat) (s : string) :
  prefix (substring 0 n s) s = true.
Proof.
  revert s. induction n as [|n IH]; intros s.
  - destruct s; reflexivity.
  - destruct s as [|c s]; simpl; [reflexivity|].
    destruct (ascii_dec c c); [apply IH|congruence].
Qed.

Lemma string_length_append (a b : string) :
  String.length (a ++ b) = String.length a + String.length b.
Proof. induction a; simpl; auto. Qed.

(** X14. The critic's claim extraction returns exactly one claim, whose
    context is the question and whose source sentence is the answer cut
    to its first 100 characters followed by three dots: the whole answer
    when it has at most 100 characters, and never more than 103
    characters. *)
Theorem extract_claims_truncates (answer question : string) :
  exists c,
    _extract_claims answer question = [c]
    /\ context c = question
    /\ (exists head, source_sentence c = head ++ "..."
                     /\ prefix head answer = true
                     /\ String.length head = Nat.min 100 (String.length answer))
    /\ String.length (source_sentence c) <= 103
    /\ (String.length answer <= 100 -> source_sentence c = answer ++ "...").
Proof.
  eexists. split; [reflexivity|]. cbn [context source_sentence].
  split; [reflexivity|]. split; [|split].
  - exists (substring 0 100 answer). split; [reflexivity|].
    split; [apply substring_prefix_of|apply substring_prefix_length].
  - rewrite string_length_append, substring_prefix_length.
    change (String.length "...") with 3.
    pose proof (Nat.le_min_l 100 (String.length answer)). lia.
  - intros Hlen. now rewrite substring_prefix_all.
Qed.

End FactCheckingProperties.

(* ================================================================== *)
(** ** Further worked instances                                         *)
(* ================================================================== *)

Lemma Samples_formatted_keeps_objects (prefix : string) :
  keeps_objects (Samples.formatted prefix).
Proof.
  intros input_data w. unfold Samples.formatted.
  destruct (Py.str input_data); simpl; repeat split.
Qed.

Lemma keeps_objects_keeps_log (p : Value -> M Value) : keeps_objects p -> keeps_log p.
Proof. intros H input_data w. apply (H input_data w). Qed.



Lemma summary_after_run_witness :
  exists v1 v2,
    buffer_validations
      (get_execution_summary
         (snd (Samples.workflow Samples.execute_core_logic (PyStr "test input")
                 Samples.world_test_data)))
    = [mkCollectedValidation "top_to_middle" v1;
       mkCollectedValidation "middle_to_bottom" v2]
    /\ status v1 = PASSED /\ layer_to v1 = MIDDLE
    /\ status v2 = PASSED /\ layer_to v2 = BOTTOM.
Proof.
  apply (@summary_after_run Samples.now_at Samples.isoformat
           (TestTopLayer_process Samples.orchestrate)
           Samples.execute_core_logic Samples.finalize_output
           MiddleLayer_check_quality_gate BottomLayer_validate_output
           BottomLayer_apply_finalization_rule
           (PyStr "test input")
           (PyStr "finalized: processed: orchestrated: test input")
           Samples.world_test_data
           (snd (Samples.workflow Samples.execute_core_logic (PyStr "test input")
                   Samples.world_test_data))
           (Samples_formatted_keeps_objects "processed: ")
           (Samples_formatted_keeps_objects "finalized: ")).
  vm_compute. reflexivity.
Defined.

(** A second run on the same orchestrator: the summary still reports two
    validations, and four log entries. *)
Example summary_after_two_runs :
  let w2 := snd (Samples.workflow Samples.execute_core_logic (PyStr "again")
                   (snd (Samples.workflow Samples.execute_core_logic (PyStr "test input")
                           Samples.world_test_data))) in
  map collected_buffer (buffer_validations (get_execution_summary w2))
  = ["top_to_middle"; "middle_to_bottom"]
  /\ total_steps (get_execution_summary w2) = 4.
Proof. vm_compute. split; reflexivity. Qed.

(** The reviser on one inaccurate and one accurate verification. *)
Example finalize_output_one_inaccurate :
  let out :=
    FactChecking.finalize_output
      (FactChecking.mkCriticAnalysis []
         [FactChecking.sample_verification "The capital of France is London" "inaccurate";
          FactChecking.sample_verification "France is in Europe" "accurate"]
         "Partially accurate response" 0.85%float []) in
  FactChecking.changes_made out
  = ["Correct inaccurate claim: The capital of France is London"]
  /\ FactChecking.revised_answer out = EmptyString
  /\ FactChecking.revision_reasoning out
     = "Made 1 revisions based on fact-checking analysis: Partially accurate response. "
       ++ "Changes: Correct inaccurate claim: The capital of France is London".
Proof. vm_compute. repeat split. Qed.

(* ================================================================== *)
(** ** Properties with every kind of exception                          *)
(* ================================================================== *)

Section FullValidateProperties.

Variable now_at : nat -> datetime.
Variable check_input : LayerExpectation -> Value -> Full.Completion bool.
Variable truth : Value -> Full.Completion bool.
Variable render : Value -> Full.Completion string.

Let full_validate := Full.validate now_at check_input truth render.
Let full_body := Full.validate_body now_at check_input truth render.




End FullValidateProperties.

(** With callbacks that raise nothing but printable instances of
    [Exception], [validate] with every kind of exception is the
    [validate] followed so far. *)
Lemma validate_ordinary (now_at : nat -> datetime) (self : BufferRef) (w : World) :
  Full.validate now_at Full.ordinary_check Full.ordinary_truth Full.ordinary_render self w
  = (Full.Normal (fst (validate now_at self w)), snd (validate now_at self w)).
Proof.
  unfold Full.validate, Full.try_except, Full.validate_body, Full.payload_size,
    Full.ordinary_check, Full.ordinary_truth, Full.ordinary_render,
    validate, validate_body, payload_size, datetime_now.
  destruct (validate_input (expectations (buffers w self)) (data (buffers w self)))
    as [iv|e]; simpl; [|reflexivity].
  destruct (truthy (data (buffers w self))) as [[|]|e]; simpl; try reflexivity.
  destruct (Py.str (data (buffers w self))) as [s0|e]; simpl; reflexivity.
Qed.

Section FullOrchestratorProperties.

Variable now_at : nat -> datetime.
Variable isoformat : datetime -> string.
Variable top_process : Value -> Full.C Value.
Variable middle_process : Value -> Full.C Value.
Variable bottom_process : Value -> Full.C Value.

Let full_run :=
  Full.execute_workflow now_at isoformat top_process middle_process bottom_process.
Let full_body :=
  Full.execute_workflow_body now_at isoformat top_process middle_process bottom_process.
Let log := logged now_at isoformat.
Let wire := wired now_at isoformat.

Lemma full_log_execution_returns ev key val w :
  Full.of_m (_log_execution now_at isoformat ev (PyDict [(PyStr key, PyStr val)])) w
  = (Full.Normal tt, log ev key val w).
Proof. reflexivity. Qed.

Lemma full_lift_pair (A : Type) (c : World -> A * World) (w : World) :
  Full.lift c w = (Full.Normal (fst (c w)), snd (c w)).
Proof. unfold Full.lift. now destruct (c w). Qed.

(** The [try] block, step by step. *)
Lemma full_execute_workflow_body_steps initial_input w :
  full_body initial_input w
  = match top_process initial_input
            (log "workflow_start" "input_type" (type_name initial_input) w) with
    | (Full.Threw t, w2) => (Full.Threw t, w2)
    | (Full.Normal top_result, w2) =>
        match middle_process top_result (wire TopStage MIDDLE MiddleStage top_result w2) with
        | (Full.Threw t, w5) => (Full.Threw t, w5)
        | (Full.Normal middle_result, w5) =>
            match bottom_process middle_result
                    (wire MiddleStage BOTTOM BottomStage middle_result w5) with
            | (Full.Threw t, w8) => (Full.Threw t, w8)
            | (Full.Normal final_result, w8) =>
                (Full.Normal final_result,
                 log "workflow_complete" "output_type" (type_name final_result) w8)
            end
        end
    end.
Proof.
  unfold full_body, Full.execute_workflow_body, Full.bind.
  rewrite full_log_execution_returns.
  destruct (top_process initial_input _) as [[top_result|t] w2]; [|reflexivity].
  rewrite !full_lift_pair. cbn [fst snd].
  change (set_input_buffer MiddleStage _ _)
    with (wire TopStage MIDDLE MiddleStage top_result w2).
  destruct (middle_process top_result _) as [[middle_result|t] w5]; [|reflexivity].
  rewrite !full_lift_pair. cbn [fst snd].
  change (set_input_buffer BottomStage _ _)
    with (wire MiddleStage BOTTOM BottomStage middle_result w5).
  destruct (bottom_process middle_result _) as [[final_result|t] w8]; [|reflexivity].
  rewrite full_log_execution_returns. reflexivity.
Qed.

(** The handler, by the kind of exception the [try] block raised. *)
Lemma full_execute_workflow_of_body initial_input w :
  full_run initial_input w
  = match full_body initial_input w with
    | (Full.Normal v, w') => (Full.Normal v, w')
    | (Full.Threw (Full.Error e), w1) =>
        (Full.Threw (Full.Error e), log "workflow_error" "error" (exc_text e) w1)
    | (Full.Threw (Full.Unprintable cls t), w1) => (Full.Threw t, w1)
    | (Full.Threw (Full.Escaping cls txt), w1) => (Full.Threw (Full.Escaping cls txt), w1)
    end.
Proof.
  unfold full_run, Full.execute_workflow, Full.try_except. fold full_body.
  destruct (full_body initial_input w) as [[v|[e|cls t|cls txt]] w1]; reflexivity.
Qed.

(** C4, as the code has it.  A run returns exactly when its [try] block
    returned, with that value and in that world.  When the block raised
    an instance of [Exception] whose text can be taken, the run appends
    a [workflow_error] entry with that text to the execution log and
    raises the same exception.  An exception outside [Exception]
    propagates as it is from the world the block left, with no entry;
    and when the block raised an instance of [Exception] that cannot be
    printed, the handler's [str(e)] raises in that same world, again
    with no entry.  The block raises when, and only when, the top, the
    middle or the bottom stage's [process] raises, with that exception. *)
Theorem execute_workflow_records_errors (initial_input : Value) (w : World) :
  let w1 := log "workflow_start" "input_type" (type_name initial_input) w in
  (forall v w', full_body initial_input w = (Full.Normal v, w') <->
                full_run initial_input w = (Full.Normal v, w'))
  /\ (forall e w_err,
        full_body initial_input w = (Full.Threw (Full.Error e), w_err) ->
        full_run initial_input w
        = (Full.Threw (Full.Error e), log "workflow_error" "error" (exc_text e) w_err)
        /\ execution_log (snd (full_run initial_input w))
           = (execution_log w_err
              ++ [mkLogEntry (isoformat (now_at (clock_reads w_err))) "workflow_error"
                    (PyDict [(PyStr "error", PyStr (exc_text e))])])%list)
  /\ (forall t w_err,
        full_body initial_input w = (Full.Threw t, w_err) ->
        Full.is_Exception t = false ->
        full_run initial_input w = (Full.Threw t, w_err))
  /\ (forall cls t w_err,
        full_body initial_input w = (Full.Threw (Full.Unprintable cls t), w_err) ->
        full_run initial_input w = (Full.Threw t, w_err))
  /\ (forall t w2,
        top_process initial_input w1 = (Full.Threw t, w2) ->
        full_body initial_input w = (Full.Threw t, w2))
  /\ (forall top_result w2 t w5,
        top_process initial_input w1 = (Full.Normal top_result, w2) ->
        middle_process top_result (wire TopStage MIDDLE MiddleStage top_result w2)
        = (Full.Threw t, w5) ->
        full_body initial_input w = (Full.Threw t, w5))
  /\ (forall top_result w2 middle_result w5 t w8,
        top_process initial_input w1 = (Full.Normal top_result, w2) ->
        middle_process top_result (wire TopStage MIDDLE MiddleStage top_result w2)
        = (Full.Normal middle_result, w5) ->
        bottom_process middle_result (wire MiddleStage BOTTOM BottomStage middle_result w5)
        = (Full.Threw t, w8) ->
        full_body initial_input w = (Full.Threw t, w8))
  /\ (forall t w_err,
        full_body initial_input w = (Full.Threw t, w_err) ->
        top_process initial_input w1 = (Full.Threw t, w_err)
        \/ (exists top_result w2,
              top_process initial_input w1 = (Full.Normal top_result, w2)
              /\ (middle_process top_result (wire TopStage MIDDLE MiddleStage top_result w2)
                  = (Full.Threw t, w_err)
                  \/ exists middle_result w5,
                       middle_process top_result
                         (wire TopStage MIDDLE MiddleStage top_result w2)
                       = (Full.Normal middle_result, w5)
                       /\ bottom_process middle_result
                            (wire MiddleStage BOTTOM BottomStage middle_result w5)
                          = (Full.Threw t, w_err)))).
Proof.
  intros w1. subst w1.
  split; [|split; [|split; [|split; [|split; [|split; [|split]]]]]].
  - intros v w'. rewrite full_execute_workflow_of_body.
    destruct (full_body initial_input w) as [[v0|[e|cls t|cls txt]] w0];
      split; intros H; inversion H; subst; try reflexivity.
  - intros e w_err Hbody. rewrite full_execute_workflow_of_body, Hbody.
    split; reflexivity.
  - intros t w_err Hbody Hesc. rewrite full_execute_workflow_of_body, Hbody.
    destruct t; [discriminate|discriminate|reflexivity].
  - intros cls t w_err Hbody. rewrite full_execute_workflow_of_body, Hbody. reflexivity.
  - intros t w2 Htop. rewrite full_execute_workflow_body_steps, Htop. reflexivity.
  - intros top_result w2 t w5 Htop Hmid.
    rewrite full_execute_workflow_body_steps, Htop, Hmid. reflexivity.
  - intros top_result w2 middle_result w5 t w8 Htop Hmid Hbot.
    rewrite full_execute_workflow_body_steps, Htop, Hmid, Hbot. reflexivity.
  - intros t w_err. rewrite full_execute_workflow_body_steps.
    destruct (top_process initial_input _) as [[top_result|t1] w2];
      [|intros H; left; exact H].
    intros H. right. exists top_result, w2. split; [reflexivity|].
    destruct (middle_process top_result _) as [[middle_result|t2] w5];
      [|left; exact H].
    right. exists middle_result, w5. split; [reflexivity|].
    destruct (bottom_process middle_result _) as [[final|t3] w8];
      [discriminate|exact H].
Qed.

Lemma full_wired_execution_log source target consumer d w :
  execution_log (wire source target consumer d w) = execution_log w.
Proof.
  unfold wire, wired, set_input_buffer, create_output_buffer, datetime_now, new_buffer.
  destruct source, consumer; reflexivity.
Qed.

(** X8. Log growth.  When the three [process] methods leave the
    execution log alone, every call of [execute_workflow] appends the
    [workflow_start] entry with the input's type name, and then: the
    [workflow_complete] entry with the result's type name when the
    [try] block returns; the [workflow_error] entry with the error text
    when the block raises an instance of [Exception] whose text can be
    taken; and nothing more when the block raises an exception outside
    [Exception] (a cancelled run) or one that cannot be printed.
    [total_steps] so grows by two, two, one and one. *)
Theorem execute_workflow_log_growth (initial_input : Value) (w : World) :
  Full.keeps_log top_process -> Full.keeps_log middle_process ->
  Full.keeps_log bottom_process ->
  let started :=
    mkLogEntry (isoformat (now_at (clock_reads w))) "workflow_start"
      (PyDict [(PyStr "input_type", PyStr (type_name initial_input))]) in
  let after := execution_log (snd (full_run initial_input w)) in
  let steps := total_steps (get_execution_summary (snd (full_run initial_input w))) in
  match full_body initial_input w with
  | (Full.Normal final_result, w8) =>
      exists last,
        after = (execution_log w ++ [started; last])%list
        /\ event last = "workflow_complete"
        /\ details last = PyDict [(PyStr "output_type", PyStr (type_name final_result))]
        /\ steps = total_steps (get_execution_summary w) + 2
  | (Full.Threw (Full.Error e), w_err) =>
      exists last,
        after = (execution_log w ++ [started; last])%list
        /\ event last = "workflow_error"
        /\ details last = PyDict [(PyStr "error", PyStr (exc_text e))]
        /\ steps = total_steps (get_execution_summary w) + 2
  | (Full.Threw _, w_err) =>
      after = (execution_log w ++ [started])%list
      /\ steps = total_steps (get_execution_summary w) + 1
  end.
Proof.
  intros Htop Hmid Hbot started after steps. subst after steps.
  assert (Hbody : forall r w9,
            full_body initial_input w = (r, w9) ->
            match r with
            | Full.Normal final_result =>
                exists w8, w9 = log "workflow_complete" "output_type"
                                  (type_name final_result) w8
                           /\ execution_log w8 = (execution_log w ++ [started])%list
            | Full.Threw _ => execution_log w9 = (execution_log w ++ [started])%list
            end).
  { intros r w9. rewrite full_execute_workflow_body_steps.
    set (w1 := log "workflow_start" "input_type" (type_name initial_input) w).
    assert (H1 : execution_log w1 = (execution_log w ++ [started])%list) by reflexivity.
    pose proof (Htop initial_input w1) as Ht.
    destruct (top_process initial_input w1) as [[top_result|t] w2]; cbn [snd] in Ht;
      [|intros H; inversion H; subst r w9; rewrite Ht; exact H1].
    pose proof (Hmid top_result (wire TopStage MIDDLE MiddleStage top_result w2)) as Hm.
    rewrite full_wired_execution_log in Hm.
    destruct (middle_process top_result _) as [[middle_result|t] w5]; cbn [snd] in Hm;
      [|intros H; inversion H; subst r w9; rewrite Hm, Ht; exact H1].
    pose proof (Hbot middle_result
                  (wire MiddleStage BOTTOM BottomStage middle_result w5)) as Hb.
    rewrite full_wired_execution_log in Hb.
    destruct (bottom_process middle_result _) as [[final_result|t] w8]; cbn [snd] in Hb;
      [|intros H; inversion H; subst r w9; rewrite Hb, Hm, Ht; exact H1].
    intros H; inversion H; subst r w9. exists w8.
    split; [reflexivity|rewrite Hb, Hm, Ht; exact H1]. }
  assert (Hlen1 : forall (l : list LogEntry) a, length (l ++ [a])%list = length l + 1)
    by (intros; rewrite length_app; reflexivity).
  rewrite full_execute_workflow_of_body.
  destruct (full_body initial_input w) as [[final_result|[e|cls t|cls txt]] w9] eqn:Hb;
    specialize (Hbody _ _ eq_refl); cbn [fst snd];
    unfold get_execution_summary; cbn [total_steps].
  - destruct Hbody as (w8 & -> & H8).
    eexists.
    change (execution_log (log "workflow_complete" "output_type"
                             (type_name final_result) w8))
      with (execution_log w8
            ++ [entry_for now_at isoformat "workflow_complete" "output_type"
                  (type_name final_result) w8])%list.
    rewrite H8, <- app_assoc. split; [reflexivity|].
    split; [reflexivity|]. split; [reflexivity|]. rewrite length_app. reflexivity.
  - eexists.
    change (execution_log (log "workflow_error" "error" (exc_text e) w9))
      with (execution_log w9
            ++ [entry_for now_at isoformat "workflow_error" "error" (exc_text e) w9])%list.
    rewrite Hbody, <- app_assoc. split; [reflexivity|].
    split; [reflexivity|]. split; [reflexivity|]. rewrite length_app. reflexivity.
  - rewrite Hbody, Hlen1. split; reflexivity.
  - rewrite Hbody, Hlen1. split; reflexivity.
Qed.

End FullOrchestratorProperties.

(** With stages that raise nothing but printable instances of
    [Exception], [execute_workflow] with every kind of exception is the
    [execute_workflow] followed so far. *)
Lemma execute_workflow_ordinary (now_at : nat -> datetime) (isoformat : datetime -> string)
    (top_process middle_process bottom_process : Value -> M Value)
    (initial_input : Value) (w : World) :
  Full.execute_workflow now_at isoformat (Full.of_stage top_process)
    (Full.of_stage middle_process) (Full.of_stage bottom_process) initial_input w
  = Full.of_m (execute_workflow now_at isoformat top_process middle_process bottom_process
                 initial_input) w.
Proof.
  rewrite full_execute_workflow_of_body, full_execute_workflow_body_steps.
  unfold Full.of_m. rewrite execute_workflow_of_body, execute_workflow_body_steps.
  unfold Full.of_stage, Full.of_m.
  destruct (top_process initial_input _) as [[top_result|e] w2]; [|reflexivity].
  cbn [Full.of_result].
  destruct (middle_process top_result _) as [[middle_result|e] w5]; [|reflexivity].
  cbn [Full.of_result].
  destruct (bottom_process middle_result _) as [[final_result|e] w8]; reflexivity.
Qed.

Lemma of_stage_keeps_log (p : Value -> M Value) :
  keeps_log p -> Full.keeps_log (Full.of_stage p).
Proof.
  intros Hk input_data w. unfold Full.of_stage, Full.of_m.
  specialize (Hk input_data w). destruct (p input_data w) as [r w']. exact Hk.
Qed.

Section FullStageProperties.

Variable now_at : nat -> datetime.
Variable check_input : LayerExpectation -> Value -> Full.Completion bool.
Variable truth : Value -> Full.Completion bool.
Variable render : Value -> Full.Completion string.
Variable execute_core_logic : Value -> Full.C Value.
Variable _check_quality_gate : string -> Value -> Full.C bool.
Variable finalize_output : Value -> Full.C Value.
Variable _apply_finalization_rule : string -> Value -> Full.C Value.
Variable _validate_output : string -> Value -> Full.C bool.

Let full_validate := Full.validate now_at check_input truth render.
Let inbound := Full.check_input_buffer now_at check_input truth render.
Let gates := Full.apply_quality_gates _check_quality_gate.
Let rules := Full.apply_finalization_rules _apply_finalization_rule.
Let validators := Full.apply_output_validators _validate_output.
Let middle :=
  Full.MiddleLayer_process now_at check_input truth render
    execute_core_logic _check_quality_gate.
Let bottom :=
  Full.BottomLayer_process now_at check_input truth render
    finalize_output _apply_finalization_rule _validate_output.

(** The inbound check raises what [validate] raised, or the
    [ValueError] of a [FAILED] outcome. *)
Lemma full_check_input_buffer_threw attached w t w' :
  inbound attached w = (Full.Threw t, w') ->
  exists buffer,
    attached = Some buffer
    /\ (full_validate buffer w = (Full.Threw t, w')
        \/ exists v,
             full_validate buffer w = (Full.Normal v, w')
             /\ status v = FAILED
             /\ t = Full.Error (mkExc "ValueError"
                                  ("Input validation failed: " ++ message v))).
Proof.
  unfold inbound, Full.check_input_buffer. fold full_validate.
  destruct attached as [buffer|]; [|discriminate].
  intros H. exists buffer. split; [reflexivity|].
  destruct (full_validate buffer w) as [[v|t0] w1].
  - destruct (ValidationStatus_eqb (status v) FAILED) eqn:Hst; [|discriminate].
    inversion H; subst. right. exists v.
    split; [reflexivity|]. split; [|reflexivity].
    now apply ValidationStatus_eqb_spec.
  - inversion H; subst. now left.
Qed.

(** A loop over the gates raises only what one of the checks raised. *)
Lemma full_apply_quality_gates_threw names result w t w' :
  gates names result w = (Full.Threw t, w') ->
  exists gate w0, In gate names /\ _check_quality_gate gate result w0 = (Full.Threw t, w').
Proof.
  unfold gates. revert w. induction names as [|gate rest IH]; intros w; simpl.
  - discriminate.
  - destruct (_check_quality_gate gate result w) as [[ok|t0] w1] eqn:Hcheck.
    + intros H. destruct (IH _ H) as (g & w0 & Hin & Hg). exists g, w0. auto.
    + intros H. inversion H; subst. exists gate, w. auto.
Qed.

Lemma full_apply_output_validators_threw names result w t w' :
  validators names result w = (Full.Threw t, w') ->
  exists validator w0,
    In validator names /\ _validate_output validator result w0 = (Full.Threw t, w').
Proof.
  unfold validators. revert w. induction names as [|validator rest IH]; intros w; simpl.
  - discriminate.
  - destruct (_validate_output validator result w) as [[ok|t0] w1] eqn:Hcheck.
    + intros H. destruct (IH _ H) as (g & w0 & Hin & Hg). exists g, w0. auto.
    + intros H. inversion H; subst. exists validator, w. auto.
Qed.

Lemma full_apply_finalization_rules_threw names input_data w t w' :
  rules names input_data w = (Full.Threw t, w') ->
  exists rule d w0,
    In rule names /\ _apply_finalization_rule rule d w0 = (Full.Threw t, w').
Proof.
  unfold rules. revert input_data w.
  induction names as [|rule rest IH]; intros input_data w; simpl.
  - discriminate.
  - destruct (_apply_finalization_rule rule input_data w) as [[d|t0] w1] eqn:Hrule.
    + intros H. destruct (IH _ _ H) as (r & d0 & w0 & Hin & Hr). exists r, d0, w0. auto.
    + intros H. inversion H; subst. exists rule, input_data, w. auto.
Qed.

(** Checks that return, with either answer, never end the loop. *)
Lemma full_apply_quality_gates_returns names result w :
  (forall gate w0, In gate names ->
     exists ok w1, _check_quality_gate gate result w0 = (Full.Normal ok, w1)) ->
  exists w', gates names result w = (Full.Normal tt, w').
Proof.
  unfold gates. revert w. induction names as [|gate rest IH]; intros w Hall; simpl.
  - eauto.
  - destruct (Hall gate w (or_introl eq_refl)) as (ok & w1 & ->).
    apply IH. intros g w0 Hin. apply Hall. now right.
Qed.

Lemma full_apply_output_validators_returns names result w :
  (forall validator w0, In validator names ->
     exists ok w1, _validate_output validator result w0 = (Full.Normal ok, w1)) ->
  exists w', validators names result w = (Full.Normal tt, w').
Proof.
  unfold validators. revert w. induction names as [|validator rest IH]; intros w Hall; simpl.
  - eauto.
  - destruct (Hall validator w (or_introl eq_refl)) as (ok & w1 & ->).
    apply IH. intros g w0 Hin. apply Hall. now right.
Qed.

(** X4. Where an exception of [MiddleLayer.process] and of
    [BottomLayer.process] comes from.  A call returns exactly when the
    inbound check, the hook and every check of the loops return, and
    then with the value the hook returned.  An exception it raises is
    one of: what [validate] on the inbound buffer raised; the
    [ValueError] of a [FAILED] inbound outcome; what the hook raised,
    and no gate is checked then; what one of the gate checks (output
    validators, finalization rules) raised.  A check that returns false
    never fails the call.  The checks and rules are any that leave the
    list they are called from alone, as the loops are followed for
    those. *)
Theorem stage_process_outcomes (input_data : Value) (w : World) :
  Full.keeps_quality_gates _check_quality_gate ->
  Full.keeps_finalization_rules _apply_finalization_rule ->
  Full.keeps_output_validators _validate_output ->
  (match middle input_data w with
   | (Full.Normal result, w') =>
       exists w1 w2,
         inbound (input_buffer (middle_base (middle_layer w))) w = (Full.Normal tt, w1)
         /\ execute_core_logic input_data w1 = (Full.Normal result, w2)
         /\ gates (quality_gates (middle_layer w2)) result w2 = (Full.Normal tt, w')
   | (Full.Threw t, w') =>
       (exists buffer,
          input_buffer (middle_base (middle_layer w)) = Some buffer
          /\ (full_validate buffer w = (Full.Threw t, w')
              \/ exists v,
                   full_validate buffer w = (Full.Normal v, w')
                   /\ status v = FAILED
                   /\ t = Full.Error (mkExc "ValueError"
                                        ("Input validation failed: " ++ message v))))
       \/ (exists w1,
             inbound (input_buffer (middle_base (middle_layer w))) w = (Full.Normal tt, w1)
             /\ (execute_core_logic input_data w1 = (Full.Threw t, w')
                 \/ exists result w2 gate w0,
                      execute_core_logic input_data w1 = (Full.Normal result, w2)
                      /\ In gate (quality_gates (middle_layer w2))
                      /\ _check_quality_gate gate result w0 = (Full.Threw t, w')))
   end)
  /\ (match bottom input_data w with
      | (Full.Normal result, w') =>
          exists w1 input_data' w2 w3,
            inbound (input_buffer (bottom_base (bottom_layer w))) w = (Full.Normal tt, w1)
            /\ rules (finalization_rules (bottom_layer w1)) input_data w1
               = (Full.Normal input_data', w2)
            /\ finalize_output input_data' w2 = (Full.Normal result, w3)
            /\ validators (output_validators (bottom_layer w3)) result w3
               = (Full.Normal tt, w')
      | (Full.Threw t, w') =>
          (exists buffer,
             input_buffer (bottom_base (bottom_layer w)) = Some buffer
             /\ (full_validate buffer w = (Full.Threw t, w')
                 \/ exists v,
                      full_validate buffer w = (Full.Normal v, w')
                      /\ status v = FAILED
                      /\ t = Full.Error (mkExc "ValueError"
                                           ("Input validation failed: " ++ message v))))
          \/ (exists w1,
                inbound (input_buffer (bottom_base (bottom_layer w))) w
                = (Full.Normal tt, w1)
                /\ ((exists rule d w0,
                       In rule (finalization_rules (bottom_layer w1))
                       /\ _apply_finalization_rule rule d w0 = (Full.Threw t, w'))
                    \/ exists input_data' w2,
                         rules (finalization_rules (bottom_layer w1)) input_data w1
                         = (Full.Normal input_data', w2)
                         /\ (finalize_output input_data' w2 = (Full.Threw t, w')
                             \/ exists result w3 validator w0,
                                  finalize_output input_data' w2
                                  = (Full.Normal result, w3)
                                  /\ In validator (output_validators (bottom_layer w3))
                                  /\ _validate_output validator result w0
                                     = (Full.Threw t, w'))))
      end)
  /\ (forall names result w0,
        (forall gate w1, In gate names ->
           exists ok w2, _check_quality_gate gate result w1 = (Full.Normal ok, w2)) ->
        exists w', gates names result w0 = (Full.Normal tt, w'))
  /\ (forall names result w0,
        (forall validator w1, In validator names ->
           exists ok w2, _validate_output validator result w1 = (Full.Normal ok, w2)) ->
        exists w', validators names result w0 = (Full.Normal tt, w')).
Proof.
  intros _ _ _.
  split; [|split; [|split]].
  - unfold middle, Full.MiddleLayer_process, Full.bind, Full.ret.
    fold inbound. fold gates.
    destruct (inbound (input_buffer (middle_base (middle_layer w))) w)
      as [[[]|t] w1] eqn:Hin.
    + destruct (execute_core_logic input_data w1) as [[result|t] w2] eqn:Hhook.
      * destruct (gates (quality_gates (middle_layer w2)) result w2)
          as [[[]|t] w3] eqn:Hg.
        -- exists w1, w2. auto.
        -- right. exists w1. split; [reflexivity|]. right.
           destruct (full_apply_quality_gates_threw _ _ _ Hg) as (gate & w0 & Hgin & Hgt).
           exists result, w2, gate, w0. auto.
      * right. exists w1. auto.
    + left. exact (full_check_input_buffer_threw _ _ Hin).
  - unfold bottom, Full.BottomLayer_process, Full.bind, Full.ret.
    fold inbound. fold rules. fold validators.
    destruct (inbound (input_buffer (bottom_base (bottom_layer w))) w)
      as [[[]|t] w1] eqn:Hin.
    + destruct (rules (finalization_rules (bottom_layer w1)) input_data w1)
        as [[input_data'|t] w2] eqn:Hrules.
      * destruct (finalize_output input_data' w2) as [[result|t] w3] eqn:Hhook.
        -- destruct (validators (output_validators (bottom_layer w3)) result w3)
             as [[[]|t] w4] eqn:Hv.
           ++ exists w1, input_data', w2, w3. auto.
           ++ right. exists w1. split; [reflexivity|]. right.
              exists input_data', w2. split; [exact Hrules|]. right.
              destruct (full_apply_output_validators_threw _ _ _ Hv)
                as (validator & w0 & Hvin & Hvt).
              exists result, w3, validator, w0. auto.
        -- right. exists w1. split; [reflexivity|]. right.
           exists input_data', w2. auto.
      * right. exists w1. split; [reflexivity|]. left.
        exact (full_apply_finalization_rules_threw _ _ _ Hrules).
    + left. exact (full_check_input_buffer_threw _ _ Hin).
  - intros names result w0. apply full_apply_quality_gates_returns.
  - intros names result w0. apply full_apply_output_validators_returns.
Qed.

End FullStageProperties.

(** With a hook that raises nothing but printable instances of
    [Exception] and checks that only compute an answer, the two
    [process] methods with every kind of exception are the ones
    followed before. *)
Lemma check_input_buffer_ordinary (now_at : nat -> datetime) (attached : option BufferRef)
    (w : World) :
  Full.check_input_buffer now_at Full.ordinary_check Full.ordinary_truth
    Full.ordinary_render attached w
  = Full.of_m
      (fun w0 =>
         match attached with
         | Some buffer =>
             let '(validation, w1) := validate now_at buffer w0 in
             if ValidationStatus_eqb (status validation) FAILED
             then (Raised (mkExc "ValueError"
                             ("Input validation failed: " ++ message validation)), w1)
             else (Returned tt, w1)
         | None => (Returned tt, w0)
         end) w.
Proof.
  unfold Full.check_input_buffer, Full.of_m. destruct attached as [buffer|]; [|reflexivity].
  rewrite validate_ordinary. destruct (validate now_at buffer w) as [v w1]. cbn [fst snd].
  destruct (ValidationStatus_eqb (status v) FAILED); reflexivity.
Qed.

Lemma apply_quality_gates_ordinary (check : string -> Value -> bool)
    (gates : list string) (result : Value) (w : World) :
  Full.apply_quality_gates (Full.pure_check check) gates result w
  = (Full.Normal tt, apply_quality_gates check gates result w).
Proof.
  revert w. induction gates as [|gate rest IH]; intros w; simpl; [reflexivity|].
  apply IH.
Qed.

Lemma apply_output_validators_ordinary (check : string -> Value -> bool)
    (validators : list string) (result : Value) (w : World) :
  Full.apply_output_validators (Full.pure_check check) validators result w
  = (Full.Normal tt, apply_output_validators check validators result w).
Proof.
  revert w. induction validators as [|validator rest IH]; intros w; simpl; [reflexivity|].
  apply IH.
Qed.

Lemma apply_finalization_rules_ordinary (rule : string -> Value -> Value)
    (rules : list string) (input_data : Value) (w : World) :
  Full.apply_finalization_rules (Full.pure_rule rule) rules input_data w
  = (Full.Normal (apply_finalization_rules rule rules input_data), w).
Proof.
  revert input_data. induction rules as [|name rest IH]; intros input_data; simpl;
    [reflexivity|].
  apply IH.
Qed.

Lemma MiddleLayer_process_ordinary (now_at : nat -> datetime)
    (execute_core_logic : Value -> M Value) (check : string -> Value -> bool)
    (input_data : Value) (w : World) :
  Full.MiddleLayer_process now_at Full.ordinary_check Full.ordinary_truth
    Full.ordinary_render (Full.of_stage execute_core_logic) (Full.pure_check check)
    input_data w
  = Full.of_m (MiddleLayer_process now_at execute_core_logic check input_data) w.
Proof.
  unfold Full.MiddleLayer_process, MiddleLayer_process, Full.bind, bind, Full.ret, ret, lift.
  rewrite check_input_buffer_ordinary. unfold Full.of_stage, Full.of_m.
  destruct (input_buffer (middle_base (middle_layer w))) as [buffer|].
  - destruct (validate now_at buffer w) as [v w1].
    destruct (ValidationStatus_eqb (status v) FAILED); [reflexivity|].
    cbn [Full.of_result].
    destruct (execute_core_logic input_data w1) as [[result|e] w2]; [|reflexivity].
    cbn [Full.of_result]. rewrite apply_quality_gates_ordinary. reflexivity.
  - cbn [Full.of_result].
    destruct (execute_core_logic input_data w) as [[result|e] w2]; [|reflexivity].
    cbn [Full.of_result]. rewrite apply_quality_gates_ordinary. reflexivity.
Qed.

Lemma BottomLayer_process_ordinary (now_at : nat -> datetime)
    (finalize_output : Value -> M Value) (rule : string -> Value -> Value)
    (check : string -> Value -> bool) (input_data : Value) (w : World) :
  Full.BottomLayer_process now_at Full.ordinary_check Full.ordinary_truth
    Full.ordinary_render (Full.of_stage finalize_output) (Full.pure_rule rule)
    (Full.pure_check check) input_data w
  = Full.of_m (BottomLayer_process now_at finalize_output rule check input_data) w.
Proof.
  unfold Full.BottomLayer_process, BottomLayer_process, Full.bind, bind, Full.ret, ret, lift.
  rewrite check_input_buffer_ordinary. unfold Full.of_stage, Full.of_m.
  destruct (input_buffer (bottom_base (bottom_layer w))) as [buffer|].
  - destruct (validate now_at buffer w) as [v w1].
    destruct (ValidationStatus_eqb (status v) FAILED); [reflexivity|].
    cbn [Full.of_result]. rewrite apply_finalization_rules_ordinary.
    destruct (finalize_output _ w1) as [[result|e] w2]; [|reflexivity].
    cbn [Full.of_result]. rewrite apply_output_validators_ordinary. reflexivity.
  - cbn [Full.of_result]. rewrite apply_finalization_rules_ordinary.
    destruct (finalize_output _ w) as [[result|e] w2]; [|reflexivity].
    cbn [Full.of_result]. rewrite apply_output_validators_ordinary. reflexivity.
Qed.

(* ================================================================== *)
(** ** Worked instances with every kind of exception                    *)
(* ================================================================== *)



(** C4 fails as stated.  With the stages of simple_test.py and a
    middle stage cancelled at its [await], the run raises
    [CancelledError] and its log holds [workflow_start] alone; with a
    middle stage whose error cannot be printed, the caller gets the
    [TypeError] of [str(e)] instead of the stage's error, and again no
    [workflow_error] entry. *)
Lemma execute_workflow_records_errors_counterexample :
  (fst (FullSamples.workflow FullSamples.cancelled (PyStr "test input")
          Samples.world_test_data)
   = Full.Threw (Full.Escaping "CancelledError" EmptyString)
   /\ map event (execution_log
                   (snd (FullSamples.workflow FullSamples.cancelled (PyStr "test input")
                           Samples.world_test_data)))
      = ["workflow_start"])
  /\ (fst (FullSamples.workflow FullSamples.unprintable_failure (PyStr "test input")
             Samples.world_test_data)
      = Full.Threw (Full.Error (mkExc "TypeError"
                                  "__str__ returned non-string (type NoneType)"))
      /\ map event (execution_log
                      (snd (FullSamples.workflow FullSamples.unprintable_failure
                              (PyStr "test input") Samples.world_test_data)))
         = ["workflow_start"]).
Proof.
  split; split; vm_compute; reflexivity.
Qed.

(** A middle stage that fails with a printable error: the entry is
    written and the same error comes out. *)
Lemma execute_workflow_records_errors_witness :
  let middle :=
    Full.of_stage (MiddleLayer_process Samples.now_at Samples.failing_core_logic
                     MiddleLayer_check_quality_gate) in
  fst (FullSamples.workflow middle (PyStr "test input") Samples.world_test_data)
  = Full.Threw (Full.Error (mkExc "RuntimeError" "agent unreachable"))
  /\ map event (execution_log
                  (snd (FullSamples.workflow middle (PyStr "test input")
                          Samples.world_test_data)))
     = ["workflow_start"; "workflow_error"]
  /\ map details (execution_log
                    (snd (FullSamples.workflow middle (PyStr "test input")
                            Samples.world_test_data)))
     = [PyDict [(PyStr "input_type", PyStr "str")];
        PyDict [(PyStr "error", PyStr "agent unreachable")]].
Proof.
  intros middle.
  pose proof (proj1 (proj2
    (execute_workflow_records_errors Samples.now_at Samples.isoformat
       (Full.of_stage (TestTopLayer_process Samples.orchestrate)) middle
       (Full.of_stage (BottomLayer_process Samples.now_at Samples.finalize_output
                         BottomLayer_apply_finalization_rule BottomLayer_validate_output))
       (PyStr "test input") Samples.world_test_data))
    (mkExc "RuntimeError" "agent unreachable")) as Hrun.
  specialize (Hrun _ ltac:(vm_compute; reflexivity)).
  destruct Hrun as [Hrun _].
  unfold FullSamples.workflow. rewrite Hrun.
  split; [reflexivity|]. split; vm_compute; reflexivity.
Defined.

(** The stages of simple_test.py leave the execution log alone. *)
Lemma TestTopLayer_process_keeps_log :
  Full.keeps_log (Full.of_stage (TestTopLayer_process Samples.orchestrate)).
Proof.
  apply of_stage_keeps_log, keeps_objects_keeps_log.
  exact (Samples_formatted_keeps_objects "orchestrated: ").
Qed.

Lemma Samples_bottom_keeps_log :
  Full.keeps_log
    (Full.of_stage (BottomLayer_process Samples.now_at Samples.finalize_output
                      BottomLayer_apply_finalization_rule BottomLayer_validate_output)).
Proof.
  apply of_stage_keeps_log, BottomLayer_process_keeps_log, keeps_objects_keeps_log.
  exact (Samples_formatted_keeps_objects "finalized: ").
Qed.

(** A cancelled run of the orchestrator of simple_test.py adds one
    entry to the log. *)
Lemma execute_workflow_log_growth_witness :
  execution_log (snd (FullSamples.workflow FullSamples.cancelled (PyStr "test input")
                        Samples.world_test_data))
  = (execution_log Samples.world_test_data
     ++ [mkLogEntry (Samples.isoformat (Samples.now_at 0)) "workflow_start"
           (PyDict [(PyStr "input_type", PyStr "str")])])%list
  /\ total_steps (get_execution_summary
                    (snd (FullSamples.workflow FullSamples.cancelled (PyStr "test input")
                            Samples.world_test_data)))
     = total_steps (get_execution_summary Samples.world_test_data) + 1.
Proof.
  exact (@execute_workflow_log_growth Samples.now_at Samples.isoformat
           (Full.of_stage (TestTopLayer_process Samples.orchestrate))
           FullSamples.cancelled
           (Full.of_stage (BottomLayer_process Samples.now_at Samples.finalize_output
                             BottomLayer_apply_finalization_rule
                             BottomLayer_validate_output))
           (PyStr "test input") Samples.world_test_data
           TestTopLayer_process_keeps_log
           (fun input_data w => eq_refl)
           Samples_bottom_keeps_log).
Defined.

(** Two gates that both fail, after the core logic of simple_test.py:
    the loop returns. *)
Lemma stage_process_outcomes_witness :
  exists w',
    Full.apply_quality_gates FullSamples.failing_gate
      ["sufficient_evidence"; "confidence_threshold"] (PyStr "processed: q")
      Samples.world_attached_permissive
    = (Full.Normal tt, w').
Proof.
  apply (proj1 (proj2 (proj2
           (@stage_process_outcomes Samples.now_at Full.ordinary_check Full.ordinary_truth
              Full.ordinary_render (Full.of_stage Samples.execute_core_logic)
              FullSamples.failing_gate (Full.of_stage Samples.finalize_output)
              FullSamples.identity_rule FullSamples.failing_gate
              (PyStr "q") Samples.world_attached_permissive
              (fun _ _ _ => eq_refl) (fun _ _ _ => eq_refl) (fun _ _ _ => eq_refl))))).
  intros gate w1 _. do 2 eexists. reflexivity.
Defined.

(** A gate check that raises ends [MiddleLayer.process] with its error,
    after the core logic has run; a gate check that answers false does
    not. *)
Example raising_gate_fails_process :
  fst (Full.MiddleLayer_process Samples.now_at Full.ordinary_check Full.ordinary_truth
         Full.ordinary_render (Full.of_stage Samples.execute_core_logic)
         FullSamples.raising_gate (PyStr "q") Samples.world_attached_permissive)
  = Full.Threw (Full.Error (mkExc "KeyError" "'confidence'"))
  /\ fst (Full.MiddleLayer_process Samples.now_at Full.ordinary_check Full.ordinary_truth
            Full.ordinary_render (Full.of_stage Samples.execute_core_logic)
            FullSamples.failing_gate (PyStr "q") Samples.world_attached_permissive)
     = Full.Normal (PyStr "processed: q").
Proof. split; vm_compute; reflexivity. Qed.
